(** * Fin-Pulse: the ingestion core ([app/core/etl/ingest.py])

    A shallow embedding of the normalisation-and-dedup pipeline: the
    source readers, the canonicaliser [to_standard_format], the
    fingerprint [generate_hash], the batch loader [save_to_database]
    and the CSV orchestrator, followed by the properties of the
    specification that concern them.

    Conventions of the embedding.
    - A Python [str] is carried as a Rocq [string] holding its UTF-8
      encoding, so [str.encode()] is the identity on the carrier and
      [bytes.decode] validates (UTF-8) or transcodes (windows-1251).
      Strings with lone surrogates have no carrier.
    - A Python [bytes] is a [list byte].
    - [dict] is an association list in insertion order, looked up from
      the front; keys are [str] or [None] (the rest key of
      [csv.DictReader]).
    - Python integers are [Z]; floats are IEEE-754 values
      ([spec_float]) whose textual form belongs to the interpreter and
      is a parameter ([Runtime]).
    - Exceptions are values of [exn]; fallible code returns
      [exn + A]; code that talks to the database session threads the
      session through a state-and-error monad. *)

From Stdlib Require Import ZArith List String Ascii Bool Lia.
From Stdlib Require Import Strings.Byte SpecFloat DecimalString.
Import ListNotations.

Local Open Scope string_scope.
Local Open Scope Z_scope.

Set Implicit Arguments.

(* ================================================================= *)
(** ** Python values *)

Inductive pykey : Type :=
| KNone
| KStr (s : string).

Coercion KStr : string >-> pykey.

#[warnings="-register-all"]
Inductive pyval : Type :=
| PNone
| PBool (b : bool)
| PInt (n : Z)
| PFloat (f : spec_float)
| PStr (s : string)
| PList (xs : list pyval)
| PDict (kvs : list (pykey * pyval)).

Definition dict : Type := list (pykey * pyval).

Definition pykey_eqb (a b : pykey) : bool :=
  match a, b with
  | KNone, KNone => true
  | KStr x, KStr y => String.eqb x y
  | _, _ => false
  end.

(** [bool(v)]: the truth value Python's [or] and [if] test. *)
Definition truthy (v : pyval) : bool :=
  match v with
  | PNone => false
  | PBool b => b
  | PInt n => negb (n =? 0)
  | PFloat (S754_zero _) => false
  | PFloat _ => true
  | PStr s => negb (String.eqb s "")
  | PList xs => match xs with [] => false | _ => true end
  | PDict kvs => match kvs with [] => false | _ => true end
  end.

(** [a or b] on values that are already computed. *)
Definition py_or (a b : pyval) : pyval := if truthy a then a else b.

(** [d.get(k, default)], [d.get(k)] and [k in d]. *)
Fixpoint get_default (d : dict) (k : pykey) (default : pyval) : pyval :=
  match d with
  | [] => default
  | (k', v) :: rest => if pykey_eqb k' k then v else get_default rest k default
  end.

Definition get (d : dict) (k : pykey) : pyval := get_default d k PNone.

Definition has_key (d : dict) (k : pykey) : bool :=
  existsb (fun kv => pykey_eqb (fst kv) k) d.

(** [d[k] = v]: overwrite in place when the key exists, append
    otherwise. *)
Fixpoint setitem (d : dict) (k : pykey) (v : pyval) : dict :=
  match d with
  | [] => [(k, v)]
  | (k', v') :: rest =>
      if pykey_eqb k' k then (k', v) :: rest else (k', v') :: setitem rest k v
  end.

Definition values (d : dict) : list pyval := map snd d.

(* ================================================================= *)
(** ** Exceptions *)

Inductive exn : Type :=
| KeyError (key : string)
| ValueError (msg : string)
| TypeError (msg : string)
| AttributeError (msg : string)
| UnicodeDecodeError (encoding : string) (byte : Z) (pos : Z) (reason : string)
| CsvError (msg : string)
| OtherError (cls msg : string).

Definition result (A : Type) : Type := (exn + A)%type.

Definition ok {A} (a : A) : result A := inr a.
Definition raise {A} (e : exn) : result A := inl e.

Definition rbind {A B} (m : result A) (f : A -> result B) : result B :=
  match m with
  | inl e => inl e
  | inr a => f a
  end.


(* ================================================================= *)
(** ** What the interpreter and its libraries contribute

    None of these is code of the repository; each is taken as it
    stands. *)

Class Runtime : Type := {
  (** [repr(x)] of a float, e.g. ["12.5"]. *)
  float_repr : spec_float -> string;
  (** [repr(s)] of a string: quoted and escaped. *)
  str_repr : string -> string;
  (** [datetime.fromtimestamp(n / 1000).isoformat()] for a number [n]
      (an [int] or a [float]); depends on the local time zone and
      raises outside the platform's range. *)
  fromtimestamp_isoformat : Z + spec_float -> result string;
  (** [list(csv.DictReader(io.StringIO(text)))]: the rows of the table,
      or [csv.Error]. *)
  csv_DictReader : string -> string + list dict
}.

(* ================================================================= *)
(** ** [str(v)] and [repr(v)] *)

Definition string_of_Z (n : Z) : string := NilZero.string_of_int (Z.to_int n).

(** Lower-case hexadecimal, [width] digits, most significant first. *)
Definition hex_digit (d : Z) : ascii :=
  if d <? 10 then ascii_of_N (Z.to_N (48 + d)) else ascii_of_N (Z.to_N (87 + d)).

Fixpoint hex_fixed (width : nat) (x : Z) (acc : string) : string :=
  match width with
  | O => acc
  | S w => hex_fixed w (Z.shiftr x 4) (String (hex_digit (Z.land x 15)) acc)
  end.

Definition hex (width : nat) (x : Z) : string := hex_fixed width x "".

Section Text.
Context {rt : Runtime}.

Definition key_repr (k : pykey) : string :=
  match k with
  | KNone => "None"
  | KStr s => str_repr s
  end.

Fixpoint py_repr (v : pyval) : string :=
  match v with
  | PNone => "None"
  | PBool b => if b then "True" else "False"
  | PInt n => string_of_Z n
  | PFloat f => float_repr f
  | PStr s => str_repr s
  | PList xs => "[" ++ String.concat ", " (map py_repr xs) ++ "]"
  | PDict kvs =>
      "{" ++ String.concat ", "
               (map (fun kv => match kv with
                               | (k, x) => key_repr k ++ ": " ++ py_repr x
                               end) kvs) ++ "}"
  end.

(** [str(v)], which is also what an f-string field [{v}] renders. *)
Definition py_str (v : pyval) : string :=
  match v with
  | PStr s => s
  | _ => py_repr v
  end.

(** [str(e)] of an exception. *)
Definition exn_str (e : exn) : string :=
  match e with
  | KeyError key => str_repr key
  | ValueError msg | TypeError msg | AttributeError msg
  | CsvError msg | OtherError _ msg => msg
  | UnicodeDecodeError encoding b pos reason =>
      "'" ++ encoding ++ "' codec can't decode byte 0x" ++ hex 2 b
          ++ " in position "
          ++ string_of_Z pos ++ ": " ++ reason
  end.
End Text.

(* ================================================================= *)
(** ** [hashlib.sha256] (FIPS 180-4), on 32-bit words carried in [Z] *)

Module SHA256.

Definition mask32 : Z := 0xffffffff.
Definition w32 (x : Z) : Z := Z.land x mask32.
Definition add32 (x y : Z) : Z := w32 (x + y).

Definition rotr (n x : Z) : Z :=
  Z.lor (Z.shiftr x n) (w32 (Z.shiftl x (32 - n))).
Definition shr (n x : Z) : Z := Z.shiftr x n.

Definition Ch (x y z : Z) : Z :=
  Z.lxor (Z.land x y) (Z.land (Z.lxor x mask32) z).
Definition Maj (x y z : Z) : Z :=
  Z.lxor (Z.lxor (Z.land x y) (Z.land x z)) (Z.land y z).
Definition Sigma0 (x : Z) : Z :=
  Z.lxor (Z.lxor (rotr 2 x) (rotr 13 x)) (rotr 22 x).
Definition Sigma1 (x : Z) : Z :=
  Z.lxor (Z.lxor (rotr 6 x) (rotr 11 x)) (rotr 25 x).
Definition sigma0 (x : Z) : Z :=
  Z.lxor (Z.lxor (rotr 7 x) (rotr 18 x)) (shr 3 x).
Definition sigma1 (x : Z) : Z :=
  Z.lxor (Z.lxor (rotr 17 x) (rotr 19 x)) (shr 10 x).

(** The first sixty-four primes. *)
Definition primes : list Z :=
  [ 2; 3; 5; 7; 11; 13; 17; 19; 23; 29; 31; 37; 41; 43; 47; 53;
    59; 61; 67; 71; 73; 79; 83; 89; 97; 101; 103; 107; 109; 113; 127; 131;
    137; 139; 149; 151; 157; 163; 167; 173; 179; 181; 191; 193; 197; 199; 211; 223;
    227; 229; 233; 239; 241; 251; 257; 263; 269; 271; 277; 281; 283; 293; 307; 311 ].

(** Integer cube root, built bit by bit from bit [bits - 1] down. *)
Fixpoint cube_root (bits : nat) (n r : Z) : Z :=
  match bits with
  | O => r
  | S b =>
      let candidate := r + Z.shiftl 1 (Z.of_nat b) in
      cube_root b n (if candidate * candidate * candidate <=? n then candidate else r)
  end.

(** The round constants: the first 32 bits of the fractional part of
    the cube root of each prime. *)
Definition K : list Z :=
  Eval vm_compute in map (fun p => w32 (cube_root 40 (Z.shiftl p 96) 0)) primes.

(** The initial hash value: the same for the square roots of the first
    eight primes. *)
Definition H0 : list Z :=
  Eval vm_compute in map (fun p => w32 (Z.sqrt (Z.shiftl p 64))) (firstn 8 primes).

(** Padding: a [0x80] byte, zeros up to 56 modulo 64, then the bit
    length as a 64-bit big-endian integer. *)
Fixpoint be_bytes (n : nat) (x : Z) (acc : list Z) : list Z :=
  match n with
  | O => acc
  | S m => be_bytes m (Z.shiftr x 8) (Z.land x 255 :: acc)
  end.

Definition pad (msg : list Z) : list Z :=
  let len := Z.of_nat (List.length msg) in
  let zeros := Z.to_nat ((55 - len) mod 64) in
  (msg ++ 128 :: repeat 0 zeros ++ be_bytes 8 (8 * len) [])%list.

(** Big-endian words of a byte sequence whose length is a multiple
    of four. *)
Fixpoint words (bs : list Z) : list Z :=
  match bs with
  | b3 :: b2 :: b1 :: b0 :: rest =>
      Z.lor (Z.shiftl b3 24) (Z.lor (Z.shiftl b2 16) (Z.lor (Z.shiftl b1 8) b0))
      :: words rest
  | _ => []
  end.

(** The message schedule, produced from a sliding window of the last
    sixteen words (oldest first). *)
Fixpoint schedule (n : nat) (win : list Z) : list Z :=
  match n with
  | O => []
  | S m =>
      let at_ i := nth i win 0 in
      let next :=
        add32 (add32 (sigma1 (at_ 14%nat)) (at_ 9%nat))
              (add32 (sigma0 (at_ 1%nat)) (at_ 0%nat)) in
      at_ 0%nat :: schedule m (tl win ++ [next])%list
  end.

Record regs : Type := Regs { ra : Z; rb : Z; rc : Z; rd : Z; re : Z; rf : Z; rg : Z; rh : Z }.

Definition round (r : regs) (kw : Z * Z) : regs :=
  let t1 := add32 (add32 (add32 (rh r) (Sigma1 (re r)))
                         (add32 (Ch (re r) (rf r) (rg r)) (fst kw))) (snd kw) in
  let t2 := add32 (Sigma0 (ra r)) (Maj (ra r) (rb r) (rc r)) in
  Regs (add32 t1 t2) (ra r) (rb r) (rc r) (add32 (rd r) t1) (re r) (rf r) (rg r).

Definition regs_of (h : list Z) : regs :=
  let at_ i := nth i h 0 in
  Regs (at_ 0%nat) (at_ 1%nat) (at_ 2%nat) (at_ 3%nat)
       (at_ 4%nat) (at_ 5%nat) (at_ 6%nat) (at_ 7%nat).

Definition list_of (r : regs) : list Z :=
  [ra r; rb r; rc r; rd r; re r; rf r; rg r; rh r].

Definition compress (h : list Z) (block : list Z) : list Z :=
  let r := fold_left round (combine K (schedule 64 block)) (regs_of h) in
  map (fun p => add32 (fst p) (snd p)) (combine h (list_of r)).

(** Sixteen-word blocks of the padded message, folded from [H0]. *)
Fixpoint blocks (n : nat) (ws : list Z) (h : list Z) : list Z :=
  match n with
  | O => h
  | S m =>
      match ws with
      | [] => h
      | _ => blocks m (skipn 16 ws) (compress h (firstn 16 ws))
      end
  end.

Definition digest (msg : list Z) : list Z :=
  let ws := words (pad msg) in
  blocks (List.length ws) ws H0.

Definition bytes_of_string (s : string) : list Z :=
  map (fun c => Z.of_N (N_of_ascii c)) (list_ascii_of_string s).

(** [hashlib.sha256(data).hexdigest()]. *)
Definition hexdigest (data : string) : string :=
  String.concat "" (map (hex 8) (digest (bytes_of_string data))).

End SHA256.

(* ================================================================= *)
(** ** The pure stages of the pipeline *)

Infix "<|>" := py_or (at level 51, left associativity).

(** [type(v).__name__]. *)
Definition type_name (v : pyval) : string :=
  match v with
  | PNone => "NoneType"
  | PBool _ => "bool"
  | PInt _ => "int"
  | PFloat _ => "float"
  | PStr _ => "str"
  | PList _ => "list"
  | PDict _ => "dict"
  end.

(** [v.get(k)] on a value that need not be a mapping. *)
Definition method_get (v : pyval) (k : pykey) : result pyval :=
  match v with
  | PDict d => ok (get d k)
  | _ => raise (AttributeError
                  ("'" ++ type_name v ++ "' object has no attribute 'get'"))
  end.

(** [a or <rest>] where evaluating [rest] may raise. *)
Definition or_else (a : pyval) (rest : result pyval) : result pyval :=
  if truthy a then ok a else rest.

Definition normalize_api_response (data : pyval) : result pyval :=
  match data with
  | PList _ => ok data
  | PDict d =>
      or_else (get d "data")
        (or_else (get d "transactions")
           (rbind (method_get (get_default d "result" (PDict [])) "transactions")
                  (fun nested => ok (nested <|> PList []))))
  | _ => raise (ValueError ("Unexpected API response type: <class '"
                              ++ type_name data ++ "'>"))
  end.

Section Pipeline.
Context {rt : Runtime}.

(** [datetime.fromtimestamp(ts_ms / 1000).isoformat()]: the division
    needs a number ([bool] counts as [int]). *)
Definition epoch_ms_isoformat (ts_ms : pyval) : result string :=
  match ts_ms with
  | PInt n => fromtimestamp_isoformat (inl n)
  | PBool b => fromtimestamp_isoformat (inl (if b then 1 else 0))
  | PFloat f => fromtimestamp_isoformat (inr f)
  | _ => raise (TypeError ("unsupported operand type(s) for /: '"
                             ++ type_name ts_ms ++ "' and 'int'"))
  end.

Definition uzum_webhook_to_standard (payload : dict) (event_type : string)
  : result dict :=
  let ts_ms := get payload "timestamp"
               <|> get payload "transTime"
               <|> get payload "confirmTime" in
  rbind (if truthy ts_ms
         then rbind (epoch_ms_isoformat ts_ms) (fun s => ok (PStr s))
         else ok PNone)
    (fun date =>
       ok [ (KStr "date", date);
            (KStr "amount", get payload "amount");
            (KStr "merchant", PStr "Uzum Bank");
            (KStr "category", PNone);
            (KStr "description", PStr ("Uzum webhook: " ++ event_type));
            (KStr "external_id", get payload "transId");
            (KStr "raw_payload", PDict payload);
            (KStr "source", PStr "uzum_webhook") ]).

Definition generate_hash (tnx : dict) : string :=
  let key := py_str (get tnx "date") ++ "|"
             ++ py_str (get tnx "amount") ++ "|"
             ++ py_str (get tnx "merchant") ++ "|"
             ++ py_str (get tnx "source") in
  SHA256.hexdigest key.

Definition to_standard_format (raw_row : dict) (source : string) : dict :=
  let date := get raw_row "date"
              <|> get raw_row "Date"
              <|> get raw_row "created_at"
              <|> get raw_row "timestamp"
              <|> get raw_row "Дата" in
  let amount := get raw_row "amount"
                <|> get raw_row "Amount"
                <|> get raw_row "Сумма"
                <|> get raw_row "value" in
  let merchant := get raw_row "merchant"
                  <|> get raw_row "Merchant"
                  <|> get raw_row "recipient"
                  <|> get raw_row "payee"
                  <|> get raw_row "Получатель" in
  let category := get raw_row "category"
                  <|> get raw_row "Category"
                  <|> get raw_row "Категория" in
  let description := get raw_row "description"
                     <|> get raw_row "Description"
                     <|> get raw_row "note"
                     <|> get raw_row "Описание" in
  let external_id := get raw_row "id"
                     <|> get raw_row "transaction_id"
                     <|> get raw_row "payment_id" in
  let raw_payload := get_default raw_row "raw_payload" (PDict raw_row) in
  let standard :=
    [ (KStr "date", date);
      (KStr "amount", amount);
      (KStr "merchant", merchant);
      (KStr "category", category);
      (KStr "description", description);
      (KStr "external_id",
        if truthy external_id then PStr (py_str external_id) else PNone);
      (KStr "raw_payload", raw_payload);
      (KStr "source", PStr source) ] in
  setitem standard "transaction_hash" (PStr (generate_hash standard)).

End Pipeline.

(* ================================================================= *)
(** ** Text decoding *)

Definition byte_val (b : byte) : Z := Z.of_N (Byte.to_N b).

Definition string_of_vals (bs : list Z) : string :=
  string_of_list_ascii (map (fun b => ascii_of_N (Z.to_N b)) bs).

Definition between (lo x hi : Z) : bool := (lo <=? x) && (x <=? hi).

Definition continuation (b : Z) : bool := between 0x80 b 0xBF.

(** Well-formed UTF-8 as the strict codec accepts it: shortest forms
    only, no surrogates, nothing above U+10FFFF. *)
Fixpoint utf8_valid (bs : list Z) : bool :=
  match bs with
  | [] => true
  | b0 :: r0 =>
      if b0 <? 0x80 then utf8_valid r0
      else if between 0xC2 b0 0xDF then
        match r0 with
        | b1 :: r1 => continuation b1 && utf8_valid r1
        | _ => false
        end
      else if between 0xE0 b0 0xEF then
        match r0 with
        | b1 :: b2 :: r2 =>
            (if b0 =? 0xE0 then between 0xA0 b1 0xBF
             else if b0 =? 0xED then between 0x80 b1 0x9F
             else continuation b1)
            && continuation b2 && utf8_valid r2
        | _ => false
        end
      else if between 0xF0 b0 0xF4 then
        match r0 with
        | b1 :: b2 :: b3 :: r3 =>
            (if b0 =? 0xF0 then between 0x90 b1 0xBF
             else if b0 =? 0xF4 then between 0x80 b1 0x8F
             else continuation b1)
            && continuation b2 && continuation b3 && utf8_valid r3
        | _ => false
        end
      else false
  end.

(** [file_bytes.decode("utf-8")]; [None] stands for the
    [UnicodeDecodeError], whose payload the only handler discards. *)
Definition decode_utf8 (file_bytes : list byte) : option string :=
  let bs := map byte_val file_bytes in
  if utf8_valid bs then Some (string_of_vals bs) else None.

(** UTF-8 encoding of a code point of the Basic Multilingual Plane. *)
Definition utf8_encode (cp : Z) : list Z :=
  if cp <? 0x80 then [cp]
  else if cp <? 0x800 then
    [Z.lor 0xC0 (Z.shiftr cp 6); Z.lor 0x80 (Z.land cp 0x3F)]
  else
    [Z.lor 0xE0 (Z.shiftr cp 12);
     Z.lor 0x80 (Z.land (Z.shiftr cp 6) 0x3F);
     Z.lor 0x80 (Z.land cp 0x3F)].

(** The windows-1251 code page, bytes [0x80..0xBF]; [0x98] is
    unassigned. *)
Definition cp1251_high : list (option Z) :=
  [ Some 0x0402; Some 0x0403; Some 0x201a; Some 0x0453; Some 0x201e; Some 0x2026; Some 0x2020; Some 0x2021;
    Some 0x20ac; Some 0x2030; Some 0x0409; Some 0x2039; Some 0x040a; Some 0x040c; Some 0x040b; Some 0x040f;
    Some 0x0452; Some 0x2018; Some 0x2019; Some 0x201c; Some 0x201d; Some 0x2022; Some 0x2013; Some 0x2014;
    None; Some 0x2122; Some 0x0459; Some 0x203a; Some 0x045a; Some 0x045c; Some 0x045b; Some 0x045f;
    Some 0x00a0; Some 0x040e; Some 0x045e; Some 0x0408; Some 0x00a4; Some 0x0490; Some 0x00a6; Some 0x00a7;
    Some 0x0401; Some 0x00a9; Some 0x0404; Some 0x00ab; Some 0x00ac; Some 0x00ad; Some 0x00ae; Some 0x0407;
    Some 0x00b0; Some 0x00b1; Some 0x0406; Some 0x0456; Some 0x0491; Some 0x00b5; Some 0x00b6; Some 0x00b7;
    Some 0x0451; Some 0x2116; Some 0x0454; Some 0x00bb; Some 0x0458; Some 0x0405; Some 0x0455; Some 0x0457 ].

Definition cp1251_code_point (b : Z) : option Z :=
  if b <? 0x80 then Some b
  else if b <? 0xC0 then nth (Z.to_nat (b - 0x80)) cp1251_high None
  else Some (0x0410 + (b - 0xC0)).

Fixpoint cp1251_chars (pos : Z) (bs : list Z) : result (list Z) :=
  match bs with
  | [] => ok []
  | b :: rest =>
      match cp1251_code_point b with
      | Some cp =>
          rbind (cp1251_chars (pos + 1) rest)
                (fun tail => ok (utf8_encode cp ++ tail)%list)
      | None =>
          raise (UnicodeDecodeError "charmap" b pos
                                    "character maps to <undefined>")
      end
  end.

(** [file_bytes.decode("windows-1251")]. *)
Definition decode_cp1251 (file_bytes : list byte) : result string :=
  rbind (cp1251_chars 0 (map byte_val file_bytes))
        (fun bs => ok (string_of_vals bs)).

Section Reader.
Context {rt : Runtime}.

Definition read_csv_file (file_bytes : list byte) : result (list dict) :=
  rbind (match decode_utf8 file_bytes with
         | Some text => ok text
         | None => decode_cp1251 file_bytes
         end)
    (fun text =>
       match csv_DictReader text with
       | inl msg => raise (CsvError msg)
       | inr reader =>
           ok (filter (fun row => existsb truthy (values row)) reader)
       end).
End Reader.

(* ================================================================= *)
(** ** The stored entity ([app/core/models.py]) *)

Module models.
(** The columns [save_to_database] sets; the remaining ones come from
    server-side defaults. *)
Record Transaction : Type := {
  owner_id : Z;
  account_id : option Z;
  amount : string;
  merchant : pyval;
  category : pyval;
  description : pyval;
  external_id : pyval;
  raw_payload : pyval;
  transaction_hash : pyval;
  processed : bool
}.
End models.

(* ================================================================= *)
(** ** Code that uses the database session

    A computation takes the session and returns a value or an
    exception together with the session it leaves behind. *)

Definition M (S A : Type) : Type := S -> result A * S.

Definition ret {S A} (a : A) : M S A := fun db => (ok a, db).

Definition bind {S A B} (m : M S A) (f : A -> M S B) : M S B :=
  fun db =>
    match m db with
    | (inl e, db') => (inl e, db')
    | (inr a, db') => f a db'
    end.

(** A step that does not touch the session. *)
Definition lift {S A} (r : result A) : M S A := fun db => (r, db).

Declare Scope session_scope.
Delimit Scope session_scope with session.
Notation "x <- m ;; k" := (bind m (fun x => k))
  (at level 61, m at next level, right associativity) : session_scope.
Notation "m ;;; k" := (bind m (fun _ => k))
  (at level 61, right associativity) : session_scope.

(** What the loader asks of an [AsyncSession]: the lookup
    [db.execute(select().where(transaction_hash == h))] followed by
    [.first()], [db.add], [db.commit] and [db.rollback].  Every call but
    [rollback] may raise; what it raises is an [Exception] (interrupts
    and cancellation, which [except Exception] lets through, are not
    modelled). *)
Class Session (S : Type) : Type := {
  select_first_by_hash : pyval -> M S (option models.Transaction);
  add : models.Transaction -> M S unit;
  commit : M S unit;
  rollback : S -> S
}.

(** [txn[k]]. *)
Fixpoint getitem (d : dict) (k : string) : result pyval :=
  match d with
  | [] => raise (KeyError k)
  | (k', v) :: rest => if pykey_eqb k' k then ok v else getitem rest k
  end.

(** How the [try] block ends when nothing is raised: through
    [continue] or by falling off its end. *)
Inductive outcome : Type :=
| Inserted
| Duplicate.

Record tally : Type := Tally {
  saved : Z;
  duplicates : Z;
  errors : list string
}.

Section Loader.
Context {rt : Runtime} {S : Type} {session : Session S}.
Variables (user_id : Z) (account_id : option Z).

Local Open Scope session_scope.

(** The body of the [try] block for one record. *)
Definition stage (txn : dict) : M S outcome :=
  h <- lift (getitem txn "transaction_hash") ;;
  existing <- select_first_by_hash h ;;
  match existing with
  | Some _ => ret Duplicate
  | None =>
      amount <- lift (getitem txn "amount") ;;
      merchant <- lift (getitem txn "merchant") ;;
      category <- lift (getitem txn "category") ;;
      description <- lift (getitem txn "description") ;;
      external_id <- lift (getitem txn "external_id") ;;
      raw_payload <- lift (getitem txn "raw_payload") ;;
      transaction_hash <- lift (getitem txn "transaction_hash") ;;
      add {| models.owner_id := user_id;
             models.account_id := account_id;
             models.amount := py_str amount;
             models.merchant := merchant;
             models.category := category;
             models.description := description;
             models.external_id := external_id;
             models.raw_payload := raw_payload;
             models.transaction_hash := transaction_hash;
             models.processed := false |} ;;;
      ret Inserted
  end.

(** One iteration: the [try] block and its [except Exception]. *)
Definition iteration (idx : Z) (txn : dict) (t : tally) (db : S) : tally * S :=
  match stage txn db with
  | (inr Duplicate, db') =>
      (Tally (saved t) (duplicates t + 1) (errors t), db')
  | (inr Inserted, db') =>
      (Tally (saved t + 1) (duplicates t) (errors t), db')
  | (inl e, db') =>
      (Tally (saved t) (duplicates t)
             (errors t ++ [("Row " ++ string_of_Z idx ++ ": " ++ exn_str e)%string])%list,
       db')
  end.

(** [for idx, txn in enumerate(transactions, start=idx)]. *)
Fixpoint loop (idx : Z) (transactions : list dict) (t : tally) (db : S)
  : tally * S :=
  match transactions with
  | [] => (t, db)
  | txn :: rest =>
      let (t', db') := iteration idx txn t db in
      loop (idx + 1) rest t' db'
  end.

Definition result_dict (t : tally) : dict :=
  [ (KStr "saved", PInt (saved t));
    (KStr "duplicates", PInt (duplicates t));
    (KStr "errors", PList (map PStr (errors t))) ].

(** The two [print] calls write to the standard output and are left
    out. *)
Definition save_to_database (transactions : list dict) : M S dict :=
  fun db =>
    let (t, db1) := loop 1 transactions (Tally 0 0 []) db in
    match commit db1 with
    | (inr _, db2) => (ok (result_dict t), db2)
    | (inl e, db2) => (raise e, rollback db2)
    end.

(** [{**a, **b}] read left to right. *)
Definition dict_merge (a b : dict) : dict :=
  fold_left (fun d kv => setitem d (fst kv) (snd kv)) b a.

Definition ingest_from_csv (file_content : list byte) (source : string)
  : M S dict :=
  rows <- lift (read_csv_file file_content) ;;
  let transactions := map (fun row => to_standard_format row source) rows in
  result <- save_to_database transactions ;;
  ret (dict_merge [(KStr "total", PInt (Z.of_nat (List.length rows)))] result).

End Loader.

(* ================================================================= *)
(** ** A reference store *)

(** What the [transactions] table takes.  [models.py] declares [amount]
    as [Numeric(15, 2)] and not null, [merchant], [category],
    [external_id] and [transaction_hash] as [String(n)], and [owner_id]
    and [account_id] as foreign keys, while the loader hands it
    [str(txn["amount"])] and whatever the record holds.  Whether a row
    passes is decided by the database the application runs on (how it
    reads that text as a number, which users and accounts exist), so it
    is taken as it stands. *)
Class Schema : Type := {
  accepts : models.Transaction -> bool
}.

(** Modelled from the spec: the storage collaborator of section 6
    (lookup by fingerprint, staging of inserts, atomic commit and
    rollback of the staged inserts, uniqueness of [transaction_hash]),
    over the table of [models.py].  The session the application really
    uses is configured outside the sources; [autoflush] records whether
    a lookup sees the rows staged earlier in the same transaction.  The
    staged rows are checked when they are committed; a session that
    flushes them at a lookup meets a refused row there already, and its
    commit then fails all the same. *)
Module MemDb.

Record t : Type := Db {
  committed : list models.Transaction;
  pending : list models.Transaction;
  autoflush : bool
}.

(** [transaction_hash == h] as the query compares it: strings by
    content, [None] as [IS NULL]. *)
Definition hash_matches (h : pyval) (row : models.Transaction) : bool :=
  match h, models.transaction_hash row with
  | PStr a, PStr b => String.eqb a b
  | PNone, PNone => true
  | _, _ => false
  end.

Definition visible (db : t) : list models.Transaction :=
  (committed db ++ (if autoflush db then pending db else []))%list.

(** The unique index on [transaction_hash]: a row whose hash is already
    in the table does not enter it ([NULL]s never collide). *)
Definition index_insert (table : list models.Transaction) (row : models.Transaction)
  : option (list models.Transaction) :=
  match models.transaction_hash row with
  | PNone => Some (table ++ [row])%list
  | h => if existsb (hash_matches h) table then None
         else Some (table ++ [row])%list
  end.

Fixpoint index_insert_all (table rows : list models.Transaction)
  : option (list models.Transaction) :=
  match rows with
  | [] => Some table
  | row :: rest =>
      match index_insert table row with
      | Some table' => index_insert_all table' rest
      | None => None
      end
  end.

Definition integrity_error : exn :=
  OtherError "IntegrityError"
             "duplicate key value violates unique constraint".

Definition statement_error : exn :=
  OtherError "StatementError"
             "value refused by the column it is bound to".

(** The [INSERT]s of the staged rows.  They go through when no row
    repeats a hash and the table takes every row; a repeated hash is
    reported in preference to a refused value (which of the two a
    database meets first depends on how it batches the rows). *)
Definition insert {schema : Schema} (table rows : list models.Transaction)
  : result (list models.Transaction) :=
  match index_insert_all table rows with
  | None => raise integrity_error
  | Some table' =>
      if forallb accepts rows then ok table' else raise statement_error
  end.

#[global] Instance session {schema : Schema} : Session t := {
  select_first_by_hash h := fun db => (ok (find (hash_matches h) (visible db)), db);
  add row := fun db => (ok tt, Db (committed db) (pending db ++ [row]) (autoflush db));
  commit := fun db =>
    match insert (committed db) (pending db) with
    | inr table => (ok tt, Db table [] (autoflush db))
    | inl e => (raise e, db)
    end;
  rollback db := Db (committed db) [] (autoflush db)
}.

End MemDb.

(** A session whose committed table can be observed. *)
Class Persistent (S : Type) : Type := {
  persisted : S -> list models.Transaction
}.

#[global] Instance memdb_persistent : Persistent MemDb.t := {
  persisted := MemDb.committed
}.

(** Atomic commits, as section 6 asks of the storage collaborator:
    neither a lookup nor a staged insert changes the committed table,
    nor does a failed commit once it is rolled back. *)
Definition atomic (S : Type) {session : Session S} {store : Persistent S} : Prop :=
  (forall h db, persisted (snd (select_first_by_hash h db)) = persisted db)
  /\ (forall row db, persisted (snd (add row db)) = persisted db)
  /\ (forall db e db', commit db = (inl e, db') ->
                       persisted (rollback db') = persisted db).

Arguments atomic S {session store}.

(** A computation that leaves the committed table as it found it. *)
Definition keeps {S : Type} {store : Persistent S} {A : Type} (m : M S A) : Prop :=
  forall db, persisted (snd (m db)) = persisted db.

(* ================================================================= *)
(** ** A runtime to run the definitions on

    Clock in UTC; CPython's output formats on what the examples below
    feed it (integers, strings without quotes or control characters,
    tables without quoted fields or carriage returns).  Floats are not
    rendered. *)
Module Sample.

Fixpoint split (sep : ascii) (s : string) : list string :=
  match s with
  | EmptyString => [""]
  | String c rest =>
      if Ascii.eqb c sep then "" :: split sep rest
      else match split sep rest with
           | [] => [String c ""]
           | x :: xs => String c x :: xs
           end
  end.

(** [dict(zip(fieldnames, row))] with the rest key [None] for surplus
    fields and the rest value [None] for missing ones. *)
Fixpoint zip_row (fieldnames row : list string) (d : dict) : dict :=
  match fieldnames, row with
  | [], [] => d
  | [], _ :: _ => setitem d KNone (PList (map PStr row))
  | name :: names, [] => zip_row names [] (setitem d name PNone)
  | name :: names, field :: fields => zip_row names fields (setitem d name (PStr field))
  end.

Definition comma : ascii := ascii_of_N 44.
Definition newline : ascii := ascii_of_N 10.

Definition dict_reader (text : string) : string + list dict :=
  let lines := filter (fun l => negb (String.eqb l "")) (split newline text) in
  match lines with
  | [] => inr []
  | header :: body =>
      inr (map (fun l => zip_row (split comma header) (split comma l) []) body)
  end.

(** Days since 1970-01-01 to (year, month, day) in the proleptic
    Gregorian calendar. *)
Definition civil_from_days (days : Z) : Z * Z * Z :=
  let z := days + 719468 in
  let era := z / 146097 in
  let doe := z - era * 146097 in
  let yoe := (doe - doe / 1460 + doe / 36524 - doe / 146096) / 365 in
  let doy := doe - (365 * yoe + yoe / 4 - yoe / 100) in
  let mp := (5 * doy + 2) / 153 in
  let d := doy - (153 * mp + 2) / 5 + 1 in
  let m := if mp <? 10 then mp + 3 else mp - 9 in
  let y := yoe + era * 400 + (if m <=? 2 then 1 else 0) in
  (y, m, d).

Fixpoint digits (width : nat) (n : Z) (acc : string) : string :=
  match width with
  | O => acc
  | S w => digits w (n / 10) (String (ascii_of_N (Z.to_N (48 + n mod 10))) acc)
  end.

Definition isoformat_utc_ms (ms : Z) : result string :=
  let secs := ms / 1000 in
  let micro := (ms mod 1000) * 1000 in
  let '(y, m, d) := civil_from_days (secs / 86400) in
  let sod := secs mod 86400 in
  if (1 <=? y) && (y <=? 9999) then
    ok (digits 4 y "" ++ "-" ++ digits 2 m "" ++ "-" ++ digits 2 d "" ++ "T"
        ++ digits 2 (sod / 3600) "" ++ ":" ++ digits 2 (sod / 60 mod 60) ""
        ++ ":" ++ digits 2 (sod mod 60) ""
        ++ (if micro =? 0 then "" else "." ++ digits 6 micro ""))
  else raise (ValueError ("year " ++ string_of_Z y ++ " is out of range")).

Definition not_rendered : exn :=
  OtherError "NotImplementedError" "floats are outside the sample runtime".

#[global] Instance runtime : Runtime := {
  float_repr := fun _ => "<float>";
  str_repr := fun s => "'" ++ s ++ "'";
  fromtimestamp_isoformat := fun n =>
    match n with
    | inl ms => isoformat_utc_ms ms
    | inr _ => raise not_rendered
    end;
  csv_DictReader := dict_reader
}.

End Sample.

(* ================================================================= *)
(** ** The fallback chains as a table

    The candidate keys of each canonical field, in the order the
    [or]-chains of [to_standard_format] try them, and the resolver such
    a chain amounts to: the first candidate whose value is truthy, else
    the value of the last candidate. *)

Definition field_candidates : list (string * list string) :=
  [ ("date", ["date"; "Date"; "created_at"; "timestamp"; "Дата"]);
    ("amount", ["amount"; "Amount"; "Сумма"; "value"]);
    ("merchant", ["merchant"; "Merchant"; "recipient"; "payee"; "Получатель"]);
    ("category", ["category"; "Category"; "Категория"]);
    ("description", ["description"; "Description"; "note"; "Описание"]);
    ("external_id", ["id"; "transaction_id"; "payment_id"]) ].

Fixpoint first_truthy (raw : dict) (candidates : list string) : pyval :=
  match candidates with
  | [] => PNone
  | [k] => get raw k
  | k :: rest => get raw k <|> first_truthy raw rest
  end.

(** What [to_standard_format] does to a resolved value before storing
    it under [field]. *)
Definition finish {rt : Runtime} (field : string) (v : pyval) : pyval :=
  if String.eqb field "external_id"
  then (if truthy v then PStr (py_str v) else PNone)
  else v.

(* ================================================================= *)
(** ** Vocabulary of the loader's properties *)

(** How many records a tally accounts for. *)
Definition tally_count (t : tally) : Z :=
  saved t + duplicates t + Z.of_nat (List.length (errors t)).

(** The keys the loader subscripts. *)
Definition loader_keys : list string :=
  [ "transaction_hash"; "amount"; "merchant"; "category"; "description";
    "external_id"; "raw_payload" ].

(** The row [stage] hands to [db.add] for a transaction that has them
    all. *)
Definition staged_row {rt : Runtime} (user_id : Z) (account_id : option Z)
           (txn : dict) : models.Transaction :=
  {| models.owner_id := user_id;
     models.account_id := account_id;
     models.amount := py_str (get txn "amount");
     models.merchant := get txn "merchant";
     models.category := get txn "category";
     models.description := get txn "description";
     models.external_id := get txn "external_id";
     models.raw_payload := get txn "raw_payload";
     models.transaction_hash := get txn "transaction_hash";
     models.processed := false |}.

(** A transaction as [to_standard_format] leaves it, as far as the
    loader can tell: every key it subscripts is there and the
    fingerprint is a string. *)
Definition canonical (txn : dict) : Prop :=
  (forall k : string, In k loader_keys -> has_key txn k = true)
  /\ exists h, get txn "transaction_hash" = PStr h.

(* ================================================================= *)
(** ** The API reader and the other two orchestrators *)

(** [client.get(url, headers=headers, params=params)] under the 30 s
    timeout, [response.raise_for_status()] and [response.json()]: the
    parsed body, or whatever the transport, the status check or the
    JSON parser raise.  This is [httpx]; it is taken as it stands. *)
Class Http : Type := {
  http_get_json : string -> dict -> option dict -> result pyval
}.

Definition fetch_from_api {http : Http} (url : string) (headers : dict)
           (params : option dict) : result pyval :=
  rbind (http_get_json url headers params) normalize_api_response.

(** The characters of a string: one piece per code point, a piece
    being a byte together with the continuation bytes after it. *)
Fixpoint chars (s : string) : list string :=
  match s with
  | EmptyString => []
  | String c rest =>
      match rest with
      | EmptyString => [String c ""]
      | String c' _ =>
          if continuation (Z.of_N (N_of_ascii c'))
          then match chars rest with
               | [] => [String c ""]
               | x :: xs => String c x :: xs
               end
          else String c "" :: chars rest
      end
  end.

(** [for r in v]: what iterating a value yields. *)
Definition py_iter (v : pyval) : result (list pyval) :=
  match v with
  | PList xs => ok xs
  | PDict kvs =>
      ok (map (fun kv => match fst kv with
                         | KStr s => PStr s
                         | KNone => PNone
                         end) kvs)
  | PStr s => ok (map PStr (chars s))
  | _ => raise (TypeError ("'" ++ type_name v ++ "' object is not iterable"))
  end.

(** [len(v)]. *)
Definition py_len (v : pyval) : result Z :=
  match v with
  | PList xs => ok (Z.of_nat (List.length xs))
  | PDict kvs => ok (Z.of_nat (List.length kvs))
  | PStr s => ok (Z.of_nat (List.length (chars s)))
  | _ => raise (TypeError ("object of type '" ++ type_name v ++ "' has no len()"))
  end.

Section Orchestrators.
Context {rt : Runtime} {http : Http} {S : Type} {session : Session S}.

Local Open Scope session_scope.

(** [to_standard_format(r, source=source)] for an [r] that need not be
    a mapping: the first thing the function does is [r.get("date")]. *)
Definition to_standard_format_any (r : pyval) (source : string) : result dict :=
  match r with
  | PDict raw_row => ok (to_standard_format raw_row source)
  | _ => raise (AttributeError
                  ("'" ++ type_name r ++ "' object has no attribute 'get'"))
  end.

(** [[to_standard_format(r, source=source) for r in rows]], element by
    element; the first element that raises ends the comprehension. *)
Fixpoint canonicalize_each (rows : list pyval) (source : string)
  : result (list dict) :=
  match rows with
  | [] => ok []
  | r :: rest =>
      rbind (to_standard_format_any r source)
            (fun txn => rbind (canonicalize_each rest source)
                              (fun txns => ok (txn :: txns)))
  end.

Definition ingest_from_api (url : string) (headers : dict)
           (user_id account_id : Z) (source : string) : M S dict :=
  rows <- lift (fetch_from_api url headers None) ;;
  transactions <- lift (rbind (py_iter rows)
                              (fun rs => canonicalize_each rs source)) ;;
  result <- save_to_database user_id (Some account_id) transactions ;;
  total <- lift (py_len rows) ;;
  ret (dict_merge [(KStr "total", PInt total)] result).

Definition ingest_from_uzum_webhook (payload : dict) (event_type : string)
           (user_id account_id : Z) : M S dict :=
  raw <- lift (uzum_webhook_to_standard payload event_type) ;;
  let txn := to_standard_format raw "uzum_webhook" in
  result <- save_to_database user_id (Some account_id) [txn] ;;
  ret (dict_merge [(KStr "total", PInt 1)] result).

End Orchestrators.

(** Endpoints to run the API orchestrator on: one URL that answers
    with a JSON-RPC style body, one whose record list holds a number,
    every other URL a client error. *)
#[global] Instance sample_http : Http := {
  http_get_json url headers params :=
    if String.eqb url "https://bank.example/transactions"
    then ok (PDict
               [ (KStr "jsonrpc", PStr "2.0");
                 (KStr "result",
                  PDict [ (KStr "transactions",
                           PList [ PDict [ (KStr "id", PInt 101);
                                           (KStr "created_at", PStr "2025-01-15T10:30:00");
                                           (KStr "amount", PInt 50000);
                                           (KStr "recipient", PStr "Starbucks") ];
                                   PDict [ (KStr "id", PInt 102);
                                           (KStr "created_at", PStr "2025-01-15T11:00:00");
                                           (KStr "amount", PInt 25000);
                                           (KStr "recipient", PStr "Korzinka") ] ]) ]) ])
    else if String.eqb url "https://bank.example/broken"
    then ok (PDict [ (KStr "data",
                      PList [ PDict [(KStr "id", PInt 1); (KStr "amount", PInt 5)];
                              PInt 17 ]) ])
    else raise (OtherError "HTTPStatusError" "Client error '404 Not Found'")
}.

(** A table to run the loader on: the columns of [models.py] on a
    deployment that knows the users 3 and 7 and the account 1.  For
    [amount] it takes the text [Numeric(15, 2)] stores as written (a
    sign, one to thirteen digits, at most two decimals), for a
    [String(n)] column [None] or text of at most [n] characters. *)
Definition is_digit (c : ascii) : bool := between 48 (Z.of_N (N_of_ascii c)) 57.

(** How many digits a string starts with, and what follows them. *)
Fixpoint leading_digits (s : string) : nat * string :=
  match s with
  | EmptyString => (O, EmptyString)
  | String c rest =>
      if is_digit c
      then let (n, tail) := leading_digits rest in (Datatypes.S n, tail)
      else (O, s)
  end.

Definition unsigned (s : string) : string :=
  match s with
  | EmptyString => s
  | String c rest => if Ascii.eqb c "-"%char || Ascii.eqb c "+"%char then rest else s
  end.

Definition numeric_15_2 (s : string) : bool :=
  let (whole, rest) := leading_digits (unsigned s) in
  Nat.leb 1%nat whole && Nat.leb whole 13%nat &&
  match rest with
  | EmptyString => true
  | String c fraction =>
      Ascii.eqb c "."%char &&
      (let (n, tail) := leading_digits fraction in
       Nat.leb 1%nat n && Nat.leb n 2%nat && String.eqb tail "")
  end.

Definition varchar (n : nat) (v : pyval) : bool :=
  match v with
  | PNone => true
  | PStr s => Nat.leb (List.length (chars s)) n
  | _ => false
  end.

Definition text (v : pyval) : bool :=
  match v with
  | PNone | PStr _ => true
  | _ => false
  end.

#[global] Instance sample_schema : Schema := {
  accepts row :=
    existsb (Z.eqb (models.owner_id row)) [3; 7]
    && match models.account_id row with
       | None => true
       | Some a => existsb (Z.eqb a) [1]
       end
    && numeric_15_2 (models.amount row)
    && varchar 255%nat (models.merchant row)
    && varchar 100%nat (models.category row)
    && text (models.description row)
    && varchar 255%nat (models.external_id row)
    && varchar 64%nat (models.transaction_hash row)
}.

(** The characters a hexadecimal digest is written with. *)
Definition is_hex_digit (c : ascii) : bool :=
  let n := Z.of_N (N_of_ascii c) in
  between 48 n 57 || between 97 n 102.

Fixpoint string_forallb (f : ascii -> bool) (s : string) : bool :=
  match s with
  | EmptyString => true
  | String c rest => f c && string_forallb f rest
  end.

(** The string fingerprints held by a table. *)
Definition string_hashes (table : list models.Transaction) : list string :=
  flat_map (fun row => match models.transaction_hash row with
                       | PStr h => [h]
                       | _ => []
                       end) table.

(** What canonicalising a canonical transaction again makes of a
    field: a falsy value is replaced by [None]. *)
Definition settle (v : pyval) : pyval := if truthy v then v else PNone.

(** A row as the loader builds it for a caller: owned by the caller's
    user and account, and not yet processed. *)
Definition owned (user_id : Z) (account_id : option Z)
           (row : models.Transaction) : Prop :=
  models.owner_id row = user_id
  /\ models.account_id row = account_id
  /\ models.processed row = false.

(* ================================================================= *)
(** * Properties *)

(** ** Test vectors *)

Example sha256_constants :
  nth 0 SHA256.K 0 = 0x428a2f98 /\ nth 63 SHA256.K 0 = 0xc67178f2
  /\ nth 0 SHA256.H0 0 = 0x6a09e667 /\ nth 7 SHA256.H0 0 = 0x5be0cd19.
Proof. repeat split. Qed.

Example sha256_empty :
  SHA256.hexdigest "" =
  "e3b0c44298fc1c149afbf4c8996fb92427ae41e4649b934ca495991b7852b855".
Proof. vm_compute. reflexivity. Qed.

Example sha256_abc :
  SHA256.hexdigest "abc" =
  "ba7816bf8f01cfea414140de5dae2223b00361a396177a9cb410ff61f20015ad".
Proof. vm_compute. reflexivity. Qed.

Example sha256_two_blocks :
  SHA256.hexdigest "aaaaaaaaaaaaaaaaaaaaaaaaaaaaaaaaaaaaaaaaaaaaaaaaaaaaaaaa" =
  "b35439a4ac6f0948b6d6f9e3c6af0f5f590ce20f1bde7090ef7970686ec6738a".
Proof. vm_compute. reflexivity. Qed.

Example sha256_utf8 :
  SHA256.hexdigest "Дата|1" =
  "39c59828c1c87d9938b2fe014db0927d841df0d245ca720d41d4157996655f5f".
Proof. vm_compute. reflexivity. Qed.

Example decode_cp1251_data :
  decode_cp1251 [xc4; xe0; xf2; xe0] = ok "Дата".
Proof. reflexivity. Qed.

Example decode_utf8_rejects_cp1251 :
  decode_utf8 [xc4; xe0; xf2; xe0] = None.
Proof. reflexivity. Qed.

Example sample_clock :
  Sample.isoformat_utc_ms 1700000000123 = ok "2023-11-14T22:13:20.123000".
Proof. reflexivity. Qed.

Example sample_reader :
  Sample.dict_reader "date,amount
2025-01-15,-12000

2025-01-16,50000,extra
2025-01-17
" = inr [ [(KStr "date", PStr "2025-01-15"); (KStr "amount", PStr "-12000")];
          [(KStr "date", PStr "2025-01-16"); (KStr "amount", PStr "50000");
           (KNone, PList [PStr "extra"])];
          [(KStr "date", PStr "2025-01-17"); (KStr "amount", PNone)] ].
Proof. reflexivity. Qed.


(** ** Dictionaries and [or] *)

Lemma pykey_eqb_refl (k : pykey) : pykey_eqb k k = true.
Proof. destruct k; simpl; auto using String.eqb_refl. Qed.

Lemma pykey_eqb_eq (a b : pykey) : pykey_eqb a b = true <-> a = b.
Proof.
  destruct a, b; simpl; split; intro H; try congruence; try reflexivity.
  - apply String.eqb_eq in H. now subst.
  - inversion H; subst. apply String.eqb_refl.
Qed.

Lemma get_cons_eq (k' k : pykey) (v : pyval) (rest : dict) :
  pykey_eqb k' k = true -> get ((k', v) :: rest) k = v.
Proof. unfold get; simpl; intros ->; reflexivity. Qed.

Lemma get_cons_ne (k' k : pykey) (v : pyval) (rest : dict) :
  pykey_eqb k' k = false -> get ((k', v) :: rest) k = get rest k.
Proof. unfold get; simpl; intros ->; reflexivity. Qed.

Lemma get_setitem_same (d : dict) (k : pykey) (v : pyval) :
  get (setitem d k v) k = v.
Proof.
  induction d as [|[k' v'] rest IH]; simpl.
  - apply get_cons_eq, pykey_eqb_refl.
  - destruct (pykey_eqb k' k) eqn:E.
    + now apply get_cons_eq.
    + rewrite get_cons_ne by assumption. exact IH.
Qed.

Lemma get_setitem_other (d : dict) (k k' : pykey) (v : pyval) :
  pykey_eqb k' k = false -> get (setitem d k' v) k = get d k.
Proof.
  intros Hne. induction d as [|[k0 v0] rest IH]; simpl.
  - now rewrite get_cons_ne.
  - destruct (pykey_eqb k0 k') eqn:E.
    + apply pykey_eqb_eq in E; subst k0.
      now rewrite !get_cons_ne.
    + destruct (pykey_eqb k0 k) eqn:E'.
      * now rewrite !get_cons_eq.
      * rewrite !get_cons_ne by assumption. exact IH.
Qed.

Lemma get_absent (d : dict) (k : pykey) :
  has_key d k = false -> get d k = PNone.
Proof.
  unfold get, has_key. induction d as [|[k' v] rest IH]; simpl; auto.
  destruct (pykey_eqb k' k); simpl; [discriminate | exact IH].
Qed.

(** Looks a literal key up in a dictionary written out key by key. *)
Ltac get_literal :=
  repeat (rewrite get_cons_ne by reflexivity);
  try (rewrite get_cons_eq by reflexivity).

Lemma py_or_assoc (a b c : pyval) : (a <|> b) <|> c = a <|> (b <|> c).
Proof. unfold py_or. destruct (truthy a) eqn:E; [now rewrite E | reflexivity]. Qed.

Lemma py_or_falsy (a b : pyval) : truthy a = false -> a <|> b = b.
Proof. unfold py_or; now intros ->. Qed.

Lemma py_or_truthy (a b : pyval) : truthy a = true -> a <|> b = a.
Proof. unfold py_or; now intros ->. Qed.

Lemma first_truthy_cons (raw : dict) (k : string) (rest : list string) :
  rest <> [] -> first_truthy raw (k :: rest) = get raw k <|> first_truthy raw rest.
Proof. destruct rest; [congruence | reflexivity]. Qed.

Lemma first_truthy_hit (raw : dict) (pre : list string) (k : string) (post : list string) :
  (forall k', In k' pre -> truthy (get raw k') = false) ->
  truthy (get raw k) = true ->
  first_truthy raw (pre ++ k :: post) = get raw k.
Proof.
  induction pre as [|p pre IH]; intros Hpre Hk.
  - destruct post as [|q post]; [reflexivity|].
    change (get raw k <|> first_truthy raw (q :: post) = get raw k).
    now apply py_or_truthy.
  - rewrite <- app_comm_cons, first_truthy_cons by (now destruct pre).
    rewrite py_or_falsy by (apply Hpre; now left).
    apply IH; auto. intros k' Hin. apply Hpre. now right.
Qed.

Lemma first_truthy_miss (raw : dict) (cs : list string) :
  cs <> [] ->
  (forall k, In k cs -> truthy (get raw k) = false) ->
  first_truthy raw cs = get raw (last cs "").
Proof.
  induction cs as [|c cs IH]; intros Hne Hall; [congruence|].
  destruct cs as [|c' cs]; [reflexivity|].
  rewrite first_truthy_cons by congruence.
  rewrite py_or_falsy by (apply Hall; now left).
  change (last (c :: c' :: cs) "") with (last (c' :: cs) "").
  apply IH; [congruence|]. intros k Hin. apply Hall. now right.
Qed.

Lemma first_truthy_absent (raw : dict) (cs : list string) :
  (forall k : string, In k cs -> has_key raw k = false) ->
  first_truthy raw cs = PNone.
Proof.
  induction cs as [|c cs IH]; intros Hall; [reflexivity|].
  destruct cs as [|c' cs].
  - simpl. apply get_absent, Hall. now left.
  - rewrite first_truthy_cons by congruence.
    rewrite py_or_falsy.
    + apply IH. intros k Hin. apply Hall. now right.
    + rewrite get_absent; [reflexivity | apply Hall; now left].
Qed.

Lemma truthy_absent (raw : dict) (k : pykey) :
  has_key raw k = false -> truthy (get raw k) = false.
Proof. intros H. now rewrite (get_absent _ _ H). Qed.

(* ================================================================= *)
(** ** The fingerprint *)

(** C1. Two canonical transactions that agree on [date], [amount],
    [merchant] and [source] have the same fingerprint, whatever their
    other fields hold: [generate_hash] reads those four entries and
    nothing else. *)
Theorem generate_hash_deterministic :
  forall (rt : Runtime) (t1 t2 : dict),
    get t1 "date" = get t2 "date" ->
    get t1 "amount" = get t2 "amount" ->
    get t1 "merchant" = get t2 "merchant" ->
    get t1 "source" = get t2 "source" ->
    generate_hash t1 = generate_hash t2.
Proof.
  intros rt t1 t2 Hd Ha Hm Hs. unfold generate_hash.
  now rewrite Hd, Ha, Hm, Hs.
Qed.

Lemma generate_hash_deterministic_witness :
  let t1 := [ (KStr "date", PStr "2025-01-15"); (KStr "amount", PStr "-12000");
              (KStr "merchant", PStr "MAKRO TASHKENT");
              (KStr "category", PStr "Food"); (KStr "description", PStr "POS Purchase");
              (KStr "external_id", PStr "17"); (KStr "raw_payload", PNone);
              (KStr "source", PStr "csv") ] in
  let t2 := [ (KStr "source", PStr "csv"); (KStr "merchant", PStr "MAKRO TASHKENT");
              (KStr "category", PNone); (KStr "description", PStr "Card payment");
              (KStr "amount", PStr "-12000"); (KStr "date", PStr "2025-01-15") ] in
  get t1 "category" <> get t2 "category"
  /\ get t1 "external_id" <> get t2 "external_id"
  /\ generate_hash t1 = generate_hash t2.
Proof.
  intros t1 t2. split; [discriminate|]. split; [discriminate|].
  apply (@generate_hash_deterministic Sample.runtime t1 t2); reflexivity.
Defined.

(** C10. The fingerprint is not injective on the identifying fields.
    The four string forms are joined with a bare ["|"], so a merchant
    ["m|x"] with amount ["1"] and a merchant ["x"] with amount ["1|m"]
    build the same key: two rows that differ in [amount] and in
    [merchant] are canonicalised to transactions with one and the same
    [transaction_hash]. *)
Theorem generate_hash_collision :
  forall rt : Runtime,
    let row1 := [ (KStr "date", PStr "2025-01-15"); (KStr "amount", PStr "1");
                  (KStr "merchant", PStr "m|x") ] in
    let row2 := [ (KStr "date", PStr "2025-01-15"); (KStr "amount", PStr "1|m");
                  (KStr "merchant", PStr "x") ] in
    let t1 := to_standard_format row1 "csv" in
    let t2 := to_standard_format row2 "csv" in
    get t1 "amount" <> get t2 "amount"
    /\ get t1 "merchant" <> get t2 "merchant"
    /\ generate_hash t1 = generate_hash t2
    /\ get t1 "transaction_hash" = get t2 "transaction_hash".
Proof.
  intros rt row1 row2 t1 t2.
  split; [discriminate|]. split; [discriminate|].
  split.
  - unfold generate_hash. f_equal.
  - unfold t1, t2, to_standard_format.
    rewrite !get_setitem_same. do 2 f_equal.
Qed.

(* ================================================================= *)
(** ** The API response shapes *)

(** C5, as the code has it.  A list is returned as it is.  In a mapping
    the candidates ["data"], ["transactions"] and
    ["result"]["transactions"] are tried in this order and the first
    whose value is truthy is returned; the nested path is consulted
    only when the first two are falsy, through the ["result"] entry
    when that is a mapping (an absent entry counts as the empty
    mapping); when no candidate is truthy, in particular when none of
    the keys is present, the result is the empty list.  Any value that
    is neither a list nor a mapping raises [ValueError]. *)
Theorem normalize_api_response_shapes :
  (forall xs, normalize_api_response (PList xs) = ok (PList xs))
  /\ (forall d, truthy (get d "data") = true ->
                normalize_api_response (PDict d) = ok (get d "data"))
  /\ (forall d, truthy (get d "data") = false ->
                truthy (get d "transactions") = true ->
                normalize_api_response (PDict d) = ok (get d "transactions"))
  /\ (forall d r, truthy (get d "data") = false ->
                  truthy (get d "transactions") = false ->
                  get_default d "result" (PDict []) = PDict r ->
                  normalize_api_response (PDict d)
                  = ok (if truthy (get r "transactions")
                        then get r "transactions" else PList []))
  /\ (forall d, has_key d "data" = false ->
                has_key d "transactions" = false ->
                has_key d "result" = false ->
                normalize_api_response (PDict d) = ok (PList []))
  /\ (forall v, (forall xs, v <> PList xs) -> (forall d, v <> PDict d) ->
                exists msg, normalize_api_response v = raise (ValueError msg)).
Proof.
  repeat split.
  - intros d H. simpl. unfold or_else. now rewrite H.
  - intros d H1 H2. simpl. unfold or_else. now rewrite H1, H2.
  - intros d r H1 H2 Hr. simpl. unfold or_else. rewrite H1, H2, Hr. reflexivity.
  - intros d H1 H2 H3. simpl. unfold or_else.
    rewrite (truthy_absent _ _ H1), (truthy_absent _ _ H2).
    assert (Hr : get_default d "result" (PDict []) = PDict []).
    { clear H1 H2. unfold has_key in H3.
      induction d as [|[k v] rest IH]; simpl in *; auto.
      destruct (pykey_eqb k "result"); simpl in *; [discriminate | auto]. }
    rewrite Hr. reflexivity.
  - intros v Hl Hd. destruct v; simpl; eauto.
    + exfalso. eapply Hl; reflexivity.
    + exfalso. eapply Hd; reflexivity.
Qed.

Lemma normalize_api_response_shapes_witness :
  let page := PList [PDict [(KStr "id", PInt 1)]] in
  normalize_api_response (PDict [(KStr "data", PList []); (KStr "transactions", page)]) = ok page
  /\ normalize_api_response
       (PDict [(KStr "jsonrpc", PStr "2.0");
               (KStr "result", PDict [(KStr "transactions", page)])]) = ok page
  /\ normalize_api_response (PDict [(KStr "foo", PStr "bar")]) = ok (PList [])
  /\ exists msg, normalize_api_response (PInt 5) = raise (ValueError msg).
Proof.
  intros page.
  destruct normalize_api_response_shapes as (_ & _ & Htx & Hnested & Hnone & Hother).
  split; [| split; [| split]].
  - apply (Htx [(KStr "data", PList []); (KStr "transactions", page)]); reflexivity.
  - apply (Hnested [(KStr "jsonrpc", PStr "2.0");
                    (KStr "result", PDict [(KStr "transactions", page)])]
                   [(KStr "transactions", page)]); reflexivity.
  - apply (Hnone [(KStr "foo", PStr "bar")]); reflexivity.
  - apply (Hother (PInt 5)); discriminate.
Defined.

(** C5 read literally fails: with ["data"] present but holding the
    empty list, the first present key does not win. *)
Lemma normalize_api_response_present_key_loses :
  let page := PList [PDict [(KStr "id", PInt 1)]] in
  let body := [(KStr "data", PList []); (KStr "transactions", page)] in
  has_key body "data" = true
  /\ normalize_api_response (PDict body) <> ok (get body "data")
  /\ normalize_api_response (PDict body) = ok page.
Proof. cbv zeta. split; [reflexivity|]. split; [discriminate | reflexivity]. Qed.

(* ================================================================= *)
(** ** The canonicaliser *)

Lemma to_standard_format_field (rt : Runtime) (raw : dict) (source field : string)
      (cs : list string) :
  In (field, cs) field_candidates ->
  get (to_standard_format raw source) field = finish field (first_truthy raw cs).
Proof.
  intros Hin. unfold to_standard_format.
  simpl in Hin.
  repeat (destruct Hin as [Heq | Hin];
          [ injection Heq as <- <-;
            rewrite get_setitem_other by reflexivity;
            get_literal; unfold finish; simpl;
            rewrite ?py_or_assoc; reflexivity
          | ]).
  contradiction.
Qed.

(** C6, as the code has it.  Each of [date], [amount], [merchant],
    [category], [description] and [external_id] is resolved from its
    ordered candidate keys by truth value: the first candidate whose
    value is truthy wins (so an English key beats a localized one
    listed after it only when its value is non-empty and non-zero);
    when no candidate holds a truthy value the field takes the value of
    the last candidate; when no candidate key is present the field is
    [None].  [external_id] is stringified when truthy and [None]
    otherwise. *)
Theorem to_standard_format_first_truthy :
  forall (rt : Runtime) (raw : dict) (source field : string) (cs : list string),
    In (field, cs) field_candidates ->
    let resolved := get (to_standard_format raw source) field in
    (forall pre k post,
        cs = (pre ++ k :: post)%list ->
        (forall k', In k' pre -> truthy (get raw k') = false) ->
        truthy (get raw k) = true ->
        resolved = finish field (get raw k))
    /\ ((forall k, In k cs -> truthy (get raw k) = false) ->
        resolved = finish field (get raw (last cs "")))
    /\ ((forall k : string, In k cs -> has_key raw k = false) ->
        resolved = PNone).
Proof.
  intros rt raw source field cs Hin resolved.
  assert (Hres : resolved = finish field (first_truthy raw cs))
    by (now apply to_standard_format_field).
  assert (Hne : cs <> []).
  { simpl in Hin.
    repeat (destruct Hin as [Heq | Hin]; [injection Heq as <- <-; discriminate|]).
    contradiction. }
  repeat split.
  - intros pre k post -> Hpre Hk. rewrite Hres. f_equal.
    now apply first_truthy_hit.
  - intros Hall. rewrite Hres. f_equal. now apply first_truthy_miss.
  - intros Hall. rewrite Hres, first_truthy_absent by assumption.
    unfold finish. now destruct (String.eqb field "external_id").
Qed.

Lemma to_standard_format_first_truthy_witness :
  let raw := [ (KStr "Amount", PStr "-1,500,000"); (KStr "Сумма", PStr "7");
               (KStr "amount", PStr "") ] in
  get (to_standard_format raw "csv") "amount" = PStr "-1,500,000".
Proof.
  intros raw.
  apply (proj1 (@to_standard_format_first_truthy Sample.runtime raw "csv" "amount"
                  ["amount"; "Amount"; "Сумма"; "value"]
                  (or_intror (or_introl eq_refl)))
               ["amount"] "Amount" ["Сумма"; "value"] eq_refl).
  - intros k' [<- | []]. reflexivity.
  - reflexivity.
Defined.

(** C6 read literally fails: the first-listed candidate is present with
    a zero value, and the value of a later candidate is taken. *)
Lemma to_standard_format_zero_amount_skipped :
  let raw := [ (KStr "amount", PInt 0); (KStr "Сумма", PInt 5) ] in
  has_key raw "amount" = true
  /\ get raw "amount" = PInt 0
  /\ get (to_standard_format raw "api") "amount" = PInt 5.
Proof. cbv zeta. repeat split. Qed.

(* ================================================================= *)
(** ** The webhook translator *)

(** C9, as the code has it.  The timestamp is the first of
    [timestamp], [transTime], [confirmTime] whose value is truthy.
    When there is none the call returns one record with [date = None];
    when there is one and its conversion to an ISO instant succeeds,
    the call returns one record with that instant as [date].  Every
    record returned has the merchant ["Uzum Bank"], the source
    ["uzum_webhook"] and a date that arose in one of these two ways. *)
Theorem uzum_webhook_to_standard_record :
  forall (rt : Runtime) (payload : dict) (event_type : string),
    let ts_ms := first_truthy payload ["timestamp"; "transTime"; "confirmTime"] in
    (truthy ts_ms = false ->
     exists r, uzum_webhook_to_standard payload event_type = ok r
               /\ get r "date" = PNone)
    /\ (forall s, truthy ts_ms = true -> epoch_ms_isoformat ts_ms = ok s ->
        exists r, uzum_webhook_to_standard payload event_type = ok r
                  /\ get r "date" = PStr s)
    /\ (forall r, uzum_webhook_to_standard payload event_type = ok r ->
                  get r "merchant" = PStr "Uzum Bank"
                  /\ get r "source" = PStr "uzum_webhook"
                  /\ if truthy ts_ms
                     then exists s, epoch_ms_isoformat ts_ms = ok s
                                    /\ get r "date" = PStr s
                     else get r "date" = PNone).
Proof.
  intros rt payload event_type ts_ms.
  assert (Hts : get payload "timestamp" <|> get payload "transTime"
                <|> get payload "confirmTime" = ts_ms)
    by (unfold ts_ms; simpl; apply py_or_assoc).
  unfold uzum_webhook_to_standard. rewrite Hts.
  split; [| split].
  - intros ->. simpl. eexists. split; [reflexivity|]. now get_literal.
  - intros s -> ->. simpl. eexists. split; [reflexivity|]. now get_literal.
  - intros r Hr. destruct (truthy ts_ms).
    + destruct (epoch_ms_isoformat ts_ms) as [e|s]; simpl in Hr; [discriminate|].
      injection Hr as <-. get_literal. repeat split. exists s. now get_literal.
    + simpl in Hr. injection Hr as <-. now get_literal.
Qed.

Lemma uzum_webhook_to_standard_record_witness :
  exists r,
    uzum_webhook_to_standard
      [(KStr "transId", PStr "tx-1"); (KStr "confirmTime", PInt 1700000000123);
       (KStr "amount", PInt 50000)] "payment.confirmed" = ok r
    /\ get r "date" = PStr "2023-11-14T22:13:20.123000".
Proof.
  apply (proj1 (proj2 (@uzum_webhook_to_standard_record Sample.runtime
           [(KStr "transId", PStr "tx-1"); (KStr "confirmTime", PInt 1700000000123);
            (KStr "amount", PInt 50000)] "payment.confirmed"))
           "2023-11-14T22:13:20.123000"); reflexivity.
Defined.

(** C9 read literally fails: a candidate field is present (with the
    epoch itself, 0) and the record still carries no date. *)
Lemma uzum_webhook_epoch_zero_has_no_date :
  let payload := [(KStr "timestamp", PInt 0); (KStr "amount", PInt 50000)] in
  has_key payload "timestamp" = true
  /\ exists r, uzum_webhook_to_standard payload "payment.confirmed" = ok r
               /\ get r "date" = PNone.
Proof. cbv zeta. split; [reflexivity|]. eexists. split; reflexivity. Qed.

(* ================================================================= *)
(** ** The delimited-text reader *)





Example read_csv_file_undecodable :
  read_csv_file [x61; x98]
  = raise (UnicodeDecodeError "charmap" 0x98 1 "character maps to <undefined>").
Proof. reflexivity. Qed.

(* ================================================================= *)
(** ** The batch loader, on any session *)

Section LoaderProperties.
Context {rt : Runtime} {S : Type} {session : Session S}.
Variables (user_id : Z) (account_id : option Z).

Lemma iteration_counts_one (idx : Z) (txn : dict) (t : tally) (db : S) :
  tally_count (fst (iteration user_id account_id idx txn t db)) = tally_count t + 1.
Proof.
  unfold iteration, tally_count.
  destruct (stage user_id account_id txn db) as [[e|[|]] db']; simpl;
    rewrite ?length_app; simpl; lia.
Qed.

Lemma loop_counts (transactions : list dict) :
  forall idx t db,
    tally_count (fst (loop user_id account_id idx transactions t db))
    = tally_count t + Z.of_nat (List.length transactions).
Proof.
  induction transactions as [|txn rest IH]; intros idx t db.
  - simpl. lia.
  - cbn [loop]. pose proof (iteration_counts_one idx txn t db) as Hone.
    destruct (iteration user_id account_id idx txn t db) as [t' db'].
    rewrite IH. simpl in Hone. cbn [List.length]. lia.
Qed.

Lemma loop_app (before after : list dict) :
  forall idx t db,
    loop user_id account_id idx (before ++ after) t db
    = let (t1, db1) := loop user_id account_id idx before t db in
      loop user_id account_id (idx + Z.of_nat (List.length before)) after t1 db1.
Proof.
  induction before as [|txn rest IH]; intros idx t db.
  - simpl. now rewrite Z.add_0_r.
  - cbn [loop app].
    destruct (iteration user_id account_id idx txn t db) as [t' db'].
    rewrite IH. destruct (loop user_id account_id (idx + 1) rest t' db').
    f_equal. cbn [List.length]. lia.
Qed.

Lemma loop_saved_nonneg (transactions : list dict) :
  forall idx t db,
    0 <= saved t -> 0 <= duplicates t ->
    0 <= saved (fst (loop user_id account_id idx transactions t db))
    /\ 0 <= duplicates (fst (loop user_id account_id idx transactions t db)).
Proof.
  induction transactions as [|txn rest IH]; intros idx t db Hs Hd.
  - simpl. lia.
  - cbn [loop]. unfold iteration.
    destruct (stage user_id account_id txn db) as [[e|[|]] db'];
      apply IH; simpl; lia.
Qed.

End LoaderProperties.

Section Persistence.
Context {rt : Runtime} {S : Type} {session : Session S} {store : Persistent S}.
Variables (user_id : Z) (account_id : option Z).
Hypothesis session_atomic : atomic S.

Lemma keeps_ret {A} (a : A) : keeps (ret a).
Proof. intros db. reflexivity. Qed.

Lemma keeps_lift {A} (r : result A) : keeps (lift r).
Proof. intros db. reflexivity. Qed.

Lemma keeps_bind {A B} (m : M S A) (f : A -> M S B) :
  keeps m -> (forall a, keeps (f a)) -> keeps (bind m f).
Proof.
  intros Hm Hf db. unfold bind. specialize (Hm db).
  destruct (m db) as [[e|a] db']; simpl in *; [assumption|].
  now rewrite Hf.
Qed.

Lemma keeps_stage (txn : dict) : keeps (stage user_id account_id txn).
Proof.
  destruct session_atomic as (Hlookup & Hadd & _).
  unfold stage.
  repeat first
    [ apply keeps_ret | apply keeps_lift
    | exact (Hlookup _) | exact (Hadd _)
    | apply keeps_bind; [| intros ?]
    | match goal with |- keeps (match ?x with _ => _ end) => destruct x end ].
Qed.

Lemma loop_persists_nothing (transactions : list dict) :
  forall idx t db,
    persisted (snd (loop user_id account_id idx transactions t db)) = persisted db.
Proof.
  induction transactions as [|txn rest IH]; intros idx t db; [reflexivity|].
  cbn [loop]. pose proof (keeps_stage txn db) as Hk. unfold iteration.
  destruct (stage user_id account_id txn db) as [[e|[|]] db'];
    rewrite IH; exact Hk.
Qed.

End Persistence.

(** C7. Whenever [save_to_database] returns (that is, whenever the
    commit succeeds), the result holds [saved], [duplicates] and
    [errors] with [saved + duplicates + len(errors)] equal to the number
    of input transactions: every record is counted exactly once. *)
Theorem save_to_database_counts_every_record :
  forall (rt : Runtime) (S : Type) (session : Session S)
         (user_id : Z) (account_id : option Z)
         (transactions : list dict) (db db' : S) (d : dict),
    save_to_database user_id account_id transactions db = (ok d, db') ->
    exists s dup errs,
      d = [ (KStr "saved", PInt s); (KStr "duplicates", PInt dup);
            (KStr "errors", PList (map PStr errs)) ]
      /\ 0 <= s /\ 0 <= dup
      /\ s + dup + Z.of_nat (List.length errs)
         = Z.of_nat (List.length transactions).
Proof.
  intros rt S session user_id account_id transactions db db' d H.
  unfold save_to_database in H.
  pose proof (loop_counts user_id account_id transactions 1 (Tally 0 0 []) db) as Hc.
  pose proof (loop_saved_nonneg user_id account_id transactions 1 (Tally 0 0 []) db) as Hn.
  destruct (loop user_id account_id 1 transactions (Tally 0 0 []) db) as [t db1].
  destruct (commit db1) as [[e|u] db2]; [discriminate|].
  injection H as <- <-.
  exists (saved t), (duplicates t), (errors t).
  unfold tally_count in Hc. simpl in Hc, Hn.
  repeat split; try (apply Hn; lia). lia.
Qed.

(** C3. If the commit at the end of [save_to_database] fails, the
    session is rolled back and the commit's exception is what the call
    raises: the caller gets no result, and on a session with atomic
    commits the committed table is what it was before the call.  If the
    commit succeeds the call returns its result dictionary, whatever
    happened to single rows. *)
Theorem save_to_database_commit_failure_rolls_back :
  forall (rt : Runtime) (S : Type) (session : Session S) (store : Persistent S)
         (user_id : Z) (account_id : option Z)
         (transactions : list dict) (db db1 : S) (t : tally),
    atomic S ->
    loop user_id account_id 1 transactions (Tally 0 0 []) db = (t, db1) ->
    (forall e db2,
        commit db1 = (inl e, db2) ->
        save_to_database user_id account_id transactions db = (raise e, rollback db2)
        /\ persisted (rollback db2) = persisted db)
    /\ (forall u db2,
           commit db1 = (inr u, db2) ->
           save_to_database user_id account_id transactions db
           = (ok (result_dict t), db2)).
Proof.
  intros rt S session store user_id account_id transactions db db1 t Hatomic Hloop.
  pose proof (loop_persists_nothing user_id account_id Hatomic
                transactions 1 (Tally 0 0 []) db) as Hp.
  rewrite Hloop in Hp. simpl in Hp.
  unfold save_to_database. rewrite Hloop. split.
  - intros e db2 Hc. rewrite Hc. split; [reflexivity|].
    rewrite <- Hp. destruct Hatomic as (_ & _ & Hcommit). eapply Hcommit; eassumption.
  - intros u db2 Hc. now rewrite Hc.
Qed.

(** C4. An exception raised while one record is looked up or staged
    becomes the entry ["Row i: <message>"] of [errors], [i] being the
    record's 1-based position, and the loop goes on with the records
    after it.  In particular, when of five records the third raises and
    the others are inserted, the call returns [saved = 4],
    [duplicates = 0] and the single error of row 3. *)
Theorem save_to_database_isolates_row_failure :
  forall (rt : Runtime) (S : Type) (session : Session S)
         (user_id : Z) (account_id : option Z),
    (forall before txn after db t1 db1 e db2,
        loop user_id account_id 1 before (Tally 0 0 []) db = (t1, db1) ->
        stage user_id account_id txn db1 = (inl e, db2) ->
        loop user_id account_id 1 (before ++ txn :: after) (Tally 0 0 []) db
        = loop user_id account_id (Z.of_nat (List.length before) + 2) after
               (Tally (saved t1) (duplicates t1)
                      (errors t1
                       ++ [("Row " ++ string_of_Z (Z.of_nat (List.length before) + 1)
                                   ++ ": " ++ exn_str e)%string])%list)
               db2)
    /\ (forall r1 r2 r3 r4 r5 db0 db1 db2 db3 db4 db5 db6 e u,
           stage user_id account_id r1 db0 = (ok Inserted, db1) ->
           stage user_id account_id r2 db1 = (ok Inserted, db2) ->
           stage user_id account_id r3 db2 = (inl e, db3) ->
           stage user_id account_id r4 db3 = (ok Inserted, db4) ->
           stage user_id account_id r5 db4 = (ok Inserted, db5) ->
           commit db5 = (inr u, db6) ->
           save_to_database user_id account_id [r1; r2; r3; r4; r5] db0
           = (ok [ (KStr "saved", PInt 4); (KStr "duplicates", PInt 0);
                   (KStr "errors", PList [PStr ("Row 3: " ++ exn_str e)]) ],
              db6)).
Proof.
  intros rt S session user_id account_id. split.
  - intros before txn after db t1 db1 e db2 Hloop Hstage.
    rewrite loop_app, Hloop. cbn [loop]. unfold iteration. rewrite Hstage.
    replace (1 + Z.of_nat (List.length before) + 1)
      with (Z.of_nat (List.length before) + 2) by lia.
    replace (1 + Z.of_nat (List.length before))
      with (Z.of_nat (List.length before) + 1) by lia.
    reflexivity.
  - intros r1 r2 r3 r4 r5 db0 db1 db2 db3 db4 db5 db6 e u H1 H2 H3 H4 H5 Hc.
    unfold ok in *. unfold save_to_database. cbn [loop]. unfold iteration.
    rewrite H1; cbv beta iota. rewrite H2; cbv beta iota.
    rewrite H3; cbv beta iota. rewrite H4; cbv beta iota.
    rewrite H5; cbv beta iota. rewrite Hc. reflexivity.
Qed.

(* ================================================================= *)
(** ** The reference store *)

Lemma memdb_atomic (schema : Schema) : atomic MemDb.t.
Proof.
  split; [| split].
  - reflexivity.
  - reflexivity.
  - intros db e db'. cbn [commit MemDb.session].
    destruct (MemDb.insert (MemDb.committed db) (MemDb.pending db));
      intros H; [|discriminate].
    now injection H as _ <-.
Qed.

Lemma save_to_database_counts_every_record_witness :
  let kept := to_standard_format [(KStr "date", PStr "2025-01-15"); (KStr "amount", PStr "-12000")] "csv" in
  let fresh := to_standard_format [(KStr "date", PStr "2025-01-16"); (KStr "amount", PStr "50000")] "csv" in
  let broken := [(KStr "transaction_hash", PStr "00"); (KStr "amount", PInt 1)] in
  let db := MemDb.Db [] [] true in
  exists s dup errs,
    fst (save_to_database 7 (Some 1) [kept; kept; broken; fresh] db)
    = ok [ (KStr "saved", PInt s); (KStr "duplicates", PInt dup);
           (KStr "errors", PList (map PStr errs)) ]
    /\ 0 <= s /\ 0 <= dup
    /\ s + dup + Z.of_nat (List.length errs) = 4.
Proof.
  intros kept fresh broken db.
  destruct (save_to_database 7 (Some 1) [kept; kept; broken; fresh] db)
    as [r db'] eqn:Hrun.
  assert (Hok : exists d, r = ok d).
  { vm_compute in Hrun. injection Hrun as <- _. eexists; reflexivity. }
  destruct Hok as [d ->].
  destruct (@save_to_database_counts_every_record _ _ _ _ _ _ _ _ _ Hrun)
    as (s & dup & errs & -> & Hs & Hd & Hsum).
  exists s, dup, errs. repeat split; assumption.
Defined.

Example save_to_database_mixed_batch :
  let kept := to_standard_format [(KStr "date", PStr "2025-01-15"); (KStr "amount", PStr "-12000")] "csv" in
  let fresh := to_standard_format [(KStr "date", PStr "2025-01-16"); (KStr "amount", PStr "50000")] "csv" in
  let broken := [(KStr "transaction_hash", PStr "00"); (KStr "amount", PInt 1)] in
  fst (save_to_database 7 (Some 1) [kept; kept; broken; fresh] (MemDb.Db [] [] true))
  = ok [ (KStr "saved", PInt 2); (KStr "duplicates", PInt 1);
         (KStr "errors", PList [PStr "Row 3: 'merchant'"]) ].
Proof. vm_compute. reflexivity. Qed.

Lemma save_to_database_commit_failure_rolls_back_witness :
  let txn := to_standard_format [(KStr "date", PStr "2025-01-15"); (KStr "amount", PStr "-12000")] "csv" in
  let db := MemDb.Db [] [] false in
  save_to_database 7 (Some 1) [txn; txn] db
  = (raise MemDb.integrity_error, MemDb.Db [] [] false)
  /\ MemDb.committed (snd (save_to_database 7 (Some 1) [txn; txn] db)) = [].
Proof.
  intros txn db.
  destruct (loop 7 (Some 1) 1 [txn; txn] (Tally 0 0 []) db) as [t db1] eqn:Hloop.
  destruct (@save_to_database_commit_failure_rolls_back _ _ _ _ _ _ _ _ _ _ (memdb_atomic _) Hloop)
    as [Hfail _].
  assert (Hc : commit db1 = (inl MemDb.integrity_error, db1)).
  { vm_compute in Hloop. injection Hloop as _ <-. vm_compute. reflexivity. }
  destruct (Hfail _ _ Hc) as [Hrun Hkept].
  rewrite Hrun. split.
  - f_equal. vm_compute in Hloop. injection Hloop as _ <-. reflexivity.
  - exact Hkept.
Defined.

Lemma save_to_database_isolates_row_failure_witness :
  let day d := to_standard_format [(KStr "date", PStr d); (KStr "amount", PStr "-12000")] "csv" in
  let broken := [(KStr "transaction_hash", PStr "00"); (KStr "amount", PInt 1)] in
  fst (save_to_database 7 (Some 1)
         [day "2025-01-15"; day "2025-01-16"; broken; day "2025-01-18"; day "2025-01-19"]
         (MemDb.Db [] [] true))
  = ok [ (KStr "saved", PInt 4); (KStr "duplicates", PInt 0);
         (KStr "errors", PList [PStr "Row 3: 'merchant'"]) ].
Proof.
  intros day broken.
  set (db0 := MemDb.Db [] [] true).
  set (db1 := snd (stage 7 (Some 1) (day "2025-01-15") db0)).
  set (db2 := snd (stage 7 (Some 1) (day "2025-01-16") db1)).
  set (db3 := snd (stage 7 (Some 1) broken db2)).
  set (db4 := snd (stage 7 (Some 1) (day "2025-01-18") db3)).
  set (db5 := snd (stage 7 (Some 1) (day "2025-01-19") db4)).
  rewrite (proj2 (@save_to_database_isolates_row_failure
                    Sample.runtime MemDb.t MemDb.session 7 (Some 1))
             _ _ _ _ _ db0 db1 db2 db3 db4 db5 (snd (commit db5))
             (KeyError "merchant") tt);
    [ reflexivity | vm_compute; reflexivity .. ].
Defined.

(* ================================================================= *)
(** ** Re-ingestion on the reference store *)

Lemma getitem_present (d : dict) (k : string) :
  has_key d k = true -> getitem d k = ok (get d k).
Proof.
  unfold has_key, get. induction d as [|[k' v] rest IH]; simpl; [discriminate|].
  destruct (pykey_eqb k' k); simpl; auto.
Qed.

Lemma to_standard_format_canonical (rt : Runtime) (raw : dict) (source : string) :
  canonical (to_standard_format raw source).
Proof.
  split.
  - intros k Hin. simpl in Hin.
    repeat (destruct Hin as [<- | Hin]; [reflexivity|]). contradiction.
  - unfold to_standard_format. rewrite get_setitem_same. eauto.
Qed.

Lemma find_existsb_false {A} (f : A -> bool) (l : list A) :
  existsb f l = false -> find f l = None.
Proof.
  induction l as [|x l IH]; simpl; [reflexivity|].
  destruct (f x); simpl; [discriminate | exact IH].
Qed.

Lemma find_existsb_true {A} (f : A -> bool) (l : list A) :
  existsb f l = true -> exists x, find f l = Some x.
Proof.
  induction l as [|x l IH]; simpl; [discriminate|].
  destruct (f x); simpl; eauto.
Qed.

Section Reingestion.
Context {rt : Runtime} {schema : Schema}.
Variables (user_id : Z) (account_id : option Z).

Local Abbreviation fingerprint txn := (get txn "transaction_hash").

Lemma stage_memdb (txn : dict) (db : MemDb.t) :
  canonical txn ->
  stage user_id account_id txn db
  = match find (MemDb.hash_matches (fingerprint txn)) (MemDb.visible db) with
    | Some _ => (ok Duplicate, db)
    | None =>
        (ok Inserted,
         MemDb.Db (MemDb.committed db)
                  (MemDb.pending db ++ [staged_row user_id account_id txn])
                  (MemDb.autoflush db))
    end.
Proof.
  intros [Hkeys _].
  assert (Hget : forall k : string, In k loader_keys -> getitem txn k = inr (get txn k)).
  { intros k Hin. now apply getitem_present, Hkeys. }
  unfold stage, bind, lift, ret.
  rewrite (Hget "transaction_hash") by (simpl; tauto).
  simpl.
  destruct (find (MemDb.hash_matches (fingerprint txn)) (MemDb.visible db));
    [reflexivity|].
  rewrite (Hget "amount"), (Hget "merchant"), (Hget "category"),
    (Hget "description"), (Hget "external_id"), (Hget "raw_payload")
    by (simpl; tauto).
  reflexivity.
Qed.

Lemma hash_matches_own (txn : dict) :
  canonical txn ->
  MemDb.hash_matches (fingerprint txn) (staged_row user_id account_id txn) = true.
Proof.
  intros [_ [h Hh]]. unfold MemDb.hash_matches. simpl. rewrite Hh.
  apply String.eqb_refl.
Qed.

Lemma hash_matches_other (txn txn' : dict) :
  canonical txn -> canonical txn' ->
  fingerprint txn' <> fingerprint txn ->
  MemDb.hash_matches (fingerprint txn') (staged_row user_id account_id txn) = false.
Proof.
  intros [_ [h Hh]] [_ [h' Hh']] Hne. unfold MemDb.hash_matches. simpl.
  rewrite Hh, Hh' in *. apply String.eqb_neq. congruence.
Qed.

(** A batch of pairwise distinct fingerprints none of which the session
    can see is staged whole. *)
Lemma loop_all_fresh (txns : list dict) :
  forall idx t db,
    Forall canonical txns ->
    NoDup (map (fun txn => fingerprint txn) txns) ->
    (forall txn, In txn txns ->
                 existsb (MemDb.hash_matches (fingerprint txn)) (MemDb.visible db) = false) ->
    loop user_id account_id idx txns t db
    = (Tally (saved t + Z.of_nat (List.length txns)) (duplicates t) (errors t),
       MemDb.Db (MemDb.committed db)
                (MemDb.pending db ++ map (staged_row user_id account_id) txns)
                (MemDb.autoflush db)).
Proof.
  induction txns as [|txn rest IH]; intros idx t db Hcan Hnd Hfresh.
  - simpl. rewrite Z.add_0_r, app_nil_r. destruct t, db; reflexivity.
  - inversion Hcan as [|? ? Hc Hcrest]; subst.
    inversion Hnd as [|? ? Hnotin Hndrest]; subst.
    cbn [loop]. unfold iteration. rewrite stage_memdb by assumption.
    rewrite find_existsb_false by (apply Hfresh; now left).
    unfold ok. cbv beta iota.
    rewrite IH; try assumption.
    + cbn [saved duplicates errors MemDb.committed MemDb.pending MemDb.autoflush].
      rewrite <- app_assoc. cbn [map app List.length]. do 2 f_equal. lia.
    + intros txn' Hin'.
      assert (Hne : fingerprint txn' <> fingerprint txn).
      { intros Heq. apply Hnotin. rewrite <- Heq.
        now apply (in_map (fun x => fingerprint x)). }
      pose proof (Hfresh txn' (or_intror Hin')) as Hold.
      unfold MemDb.visible in *.
      cbn [MemDb.committed MemDb.pending MemDb.autoflush].
      rewrite existsb_app in *. apply orb_false_iff in Hold. destruct Hold as [Hc' Hp'].
      rewrite Hc'. simpl. destruct (MemDb.autoflush db); [|reflexivity].
      rewrite existsb_app, Hp'. simpl.
      rewrite hash_matches_other; auto.
      rewrite Forall_forall in Hcrest. auto.
Qed.

(** Such a batch passes the unique index. *)
Lemma insert_all_fresh (txns : list dict) :
  forall table,
    Forall canonical txns ->
    NoDup (map (fun txn => fingerprint txn) txns) ->
    (forall txn, In txn txns ->
                 existsb (MemDb.hash_matches (fingerprint txn)) table = false) ->
    MemDb.index_insert_all table (map (staged_row user_id account_id) txns)
    = Some (table ++ map (staged_row user_id account_id) txns)%list.
Proof.
  induction txns as [|txn rest IH]; intros table Hcan Hnd Hfresh.
  - simpl. now rewrite app_nil_r.
  - inversion Hcan as [|? ? Hc Hcrest]; subst.
    inversion Hnd as [|? ? Hnotin Hndrest]; subst.
    cbn [map MemDb.index_insert_all]. unfold MemDb.index_insert.
    pose proof Hc as [_ [h Hh]].
    change (models.transaction_hash (staged_row user_id account_id txn))
      with (fingerprint txn).
    pose proof (Hfresh txn (or_introl eq_refl)) as Hself.
    rewrite Hh at 1. rewrite Hh in Hself. rewrite Hself.
    rewrite IH; try assumption.
    + now rewrite <- app_assoc.
    + intros txn' Hin'.
      rewrite existsb_app, (Hfresh txn' (or_intror Hin')). simpl.
      rewrite hash_matches_other; auto.
      * rewrite Forall_forall in Hcrest. auto.
      * intros Heq. apply Hnotin. rewrite <- Heq.
        now apply (in_map (fun x => fingerprint x)).
Qed.

(** A batch whose fingerprints the session can all see is skipped
    whole. *)
Lemma loop_all_duplicates (txns : list dict) :
  forall idx t db,
    Forall canonical txns ->
    (forall txn, In txn txns ->
                 existsb (MemDb.hash_matches (fingerprint txn)) (MemDb.visible db) = true) ->
    loop user_id account_id idx txns t db
    = (Tally (saved t) (duplicates t + Z.of_nat (List.length txns)) (errors t), db).
Proof.
  induction txns as [|txn rest IH]; intros idx t db Hcan Hseen.
  - simpl. rewrite Z.add_0_r. destruct t; reflexivity.
  - inversion Hcan as [|? ? Hc Hcrest]; subst.
    cbn [loop]. unfold iteration. rewrite stage_memdb by assumption.
    destruct (find_existsb_true _ _ (Hseen txn (or_introl eq_refl))) as [row ->].
    unfold ok. cbv beta iota.
    rewrite IH; try assumption.
    + cbn [saved duplicates errors List.length]. do 2 f_equal. lia.
    + intros txn' Hin'. apply Hseen. now right.
Qed.

End Reingestion.

Lemma memdb_commit (schema : Schema) (db : MemDb.t) :
  commit db
  = match MemDb.index_insert_all (MemDb.committed db) (MemDb.pending db) with
    | Some table =>
        if forallb accepts (MemDb.pending db)
        then (ok tt, MemDb.Db table [] (MemDb.autoflush db))
        else (raise MemDb.statement_error, db)
    | None => (raise MemDb.integrity_error, db)
    end.
Proof.
  cbn [commit MemDb.session]. unfold MemDb.insert.
  destruct (MemDb.index_insert_all (MemDb.committed db) (MemDb.pending db));
    [destruct (forallb accepts (MemDb.pending db))|]; reflexivity.
Qed.

(** The staged rows of a batch the table takes record by record. *)
Lemma forallb_accepts_staged (rt : Runtime) (schema : Schema)
      (user_id : Z) (account_id : option Z) (txns : list dict) :
  (forall txn, In txn txns -> accepts (staged_row user_id account_id txn) = true) ->
  forallb accepts (map (staged_row user_id account_id) txns) = true.
Proof.
  intros H. apply forallb_forall. intros row Hin.
  apply in_map_iff in Hin. destruct Hin as (txn & <- & Hin). now apply H.
Qed.




Example numeric_15_2_amounts :
  map numeric_15_2 ["-12000"; "50000"; "1500000.00"; "None"; "1,500,000.00"; ""]
  = [true; true; true; false; false; false].
Proof. reflexivity. Qed.

Example chars_of_cyrillic :
  chars "Дa" = ["Д"; "a"].
Proof. reflexivity. Qed.
(* ================================================================= *)
(** * Further properties of the pipeline *)

(** ** The shape of a fingerprint *)

Lemma string_length_append (a b : string) :
  String.length (a ++ b) = (String.length a + String.length b)%nat.
Proof. induction a as [|c a IH]; simpl; [reflexivity | now rewrite IH]. Qed.

Lemma string_forallb_append (f : ascii -> bool) (a b : string) :
  string_forallb f (a ++ b) = string_forallb f a && string_forallb f b.
Proof.
  induction a as [|c a IH]; simpl; [reflexivity|].
  now rewrite IH, andb_assoc.
Qed.

Lemma hex_digit_is_hex (x : Z) : is_hex_digit (hex_digit (Z.land x 15)) = true.
Proof.
  assert (H : 0 <= Z.land x 15 < 16).
  { change 15 with (Z.ones 4). rewrite Z.land_ones by lia.
    apply Z.mod_pos_bound. reflexivity. }
  set (d := Z.land x 15) in *.
  assert (Hd : d = 0 \/ d = 1 \/ d = 2 \/ d = 3 \/ d = 4 \/ d = 5 \/ d = 6 \/ d = 7
               \/ d = 8 \/ d = 9 \/ d = 10 \/ d = 11 \/ d = 12 \/ d = 13 \/ d = 14
               \/ d = 15) by lia.
  repeat (destruct Hd as [-> | Hd]; [reflexivity|]). now rewrite Hd.
Qed.

Lemma hex_fixed_shape (width : nat) :
  forall x acc,
    String.length (hex_fixed width x acc) = (width + String.length acc)%nat
    /\ (string_forallb is_hex_digit acc = true ->
        string_forallb is_hex_digit (hex_fixed width x acc) = true).
Proof.
  induction width as [|w IH]; intros x acc; simpl; [auto|].
  destruct (IH (Z.shiftr x 4) (String (hex_digit (Z.land x 15)) acc)) as [Hlen Hhex].
  split.
  - rewrite Hlen. simpl. lia.
  - intros Hacc. apply Hhex. simpl. now rewrite hex_digit_is_hex.
Qed.

Lemma compress_length (h block : list Z) :
  List.length h = 8%nat -> List.length (SHA256.compress h block) = 8%nat.
Proof.
  intros Hh. unfold SHA256.compress.
  rewrite length_map, length_combine, Hh. reflexivity.
Qed.

Lemma blocks_length (n : nat) :
  forall ws h, List.length h = 8%nat -> List.length (SHA256.blocks n ws h) = 8%nat.
Proof.
  induction n as [|n IH]; intros ws h Hh; simpl; [assumption|].
  destruct ws; [assumption|]. apply IH. now apply compress_length.
Qed.

Lemma string_append_nil_r (s : string) : s ++ "" = s.
Proof. induction s as [|c s IH]; cbn [append]; [reflexivity | now rewrite IH]. Qed.

Lemma concat_empty_cons (x : string) (xs : list string) :
  String.concat "" (x :: xs) = x ++ String.concat "" xs.
Proof.
  destruct xs; cbn [String.concat]; [now rewrite string_append_nil_r | reflexivity].
Qed.

Lemma concat_hex_shape (ws : list Z) :
  String.length (String.concat "" (map (hex 8) ws)) = (8 * List.length ws)%nat
  /\ string_forallb is_hex_digit (String.concat "" (map (hex 8) ws)) = true.
Proof.
  induction ws as [|w ws [IHlen IHhex]]; [split; reflexivity|].
  cbn [map]. rewrite concat_empty_cons.
  rewrite string_length_append, string_forallb_append, IHlen, IHhex.
  destruct (hex_fixed_shape 8 w "") as [Hlen Hhex]. unfold hex.
  rewrite Hlen, Hhex by reflexivity.
  split; [cbn [List.length String.length]; lia | reflexivity].
Qed.

(** X1. A fingerprint is always sixty-four lower-case hexadecimal
    digits, whatever the transaction holds: it fits the [String(64)]
    column it is stored in. *)
Theorem generate_hash_is_64_hex_digits :
  forall (rt : Runtime) (tnx : dict),
    String.length (generate_hash tnx) = 64%nat
    /\ string_forallb is_hex_digit (generate_hash tnx) = true.
Proof.
  intros rt tnx. unfold generate_hash, SHA256.hexdigest.
  destruct (concat_hex_shape
              (SHA256.digest (SHA256.bytes_of_string
                 (py_str (get tnx "date") ++ "|" ++ py_str (get tnx "amount") ++ "|"
                  ++ py_str (get tnx "merchant") ++ "|" ++ py_str (get tnx "source")))))
    as [Hlen Hhex].
  split; [|exact Hhex].
  rewrite Hlen. unfold SHA256.digest. rewrite blocks_length; reflexivity.
Qed.

(* ================================================================= *)
(** ** The canonical transaction as a whole *)

Lemma get_nil (k : pykey) : get [] k = PNone.
Proof. reflexivity. Qed.

(** Looks every literal key up in dictionaries written out key by
    key. *)
Ltac get_all :=
  repeat first [ rewrite get_cons_eq by reflexivity
               | rewrite get_cons_ne by reflexivity
               | rewrite get_nil ].

Lemma get_default_get (d : dict) (k : pykey) (default : pyval) :
  get_default d k default = if has_key d k then get d k else default.
Proof.
  unfold get, has_key. induction d as [|[k' v] rest IH]; simpl; [reflexivity|].
  destruct (pykey_eqb k' k); simpl; [reflexivity | exact IH].
Qed.

Lemma py_or_none_l (v : pyval) : PNone <|> v = v.
Proof. reflexivity. Qed.

Lemma py_or_none_r (v : pyval) : v <|> PNone = settle v.
Proof. reflexivity. Qed.

Lemma settle_settle (v : pyval) : settle (settle v) = settle v.
Proof. unfold settle. destruct (truthy v) eqn:E; [now rewrite E | reflexivity]. Qed.

Lemma to_standard_format_explicit (rt : Runtime) (raw : dict) (source : string) :
  to_standard_format raw source
  = let date := first_truthy raw ["date"; "Date"; "created_at"; "timestamp"; "Дата"] in
    let amount := first_truthy raw ["amount"; "Amount"; "Сумма"; "value"] in
    let merchant :=
      first_truthy raw ["merchant"; "Merchant"; "recipient"; "payee"; "Получатель"] in
    [ (KStr "date", date);
      (KStr "amount", amount);
      (KStr "merchant", merchant);
      (KStr "category", first_truthy raw ["category"; "Category"; "Категория"]);
      (KStr "description",
        first_truthy raw ["description"; "Description"; "note"; "Описание"]);
      (KStr "external_id",
        finish "external_id" (first_truthy raw ["id"; "transaction_id"; "payment_id"]));
      (KStr "raw_payload", get_default raw "raw_payload" (PDict raw));
      (KStr "source", PStr source);
      (KStr "transaction_hash",
        PStr (SHA256.hexdigest (py_str date ++ "|" ++ py_str amount ++ "|"
                                ++ py_str merchant ++ "|" ++ source))) ].
Proof.
  unfold to_standard_format, generate_hash. get_all.
  cbn [first_truthy]. rewrite ?py_or_assoc. reflexivity.
Qed.

(** X2. A canonical transaction always has the same nine keys in the
    same order; its [source] is the tag the caller passed, whatever the
    raw row says; its [raw_payload] is the raw row's own [raw_payload]
    entry when the row has that key and the whole raw row otherwise;
    and its [transaction_hash] is the fingerprint of the finished
    transaction itself. *)
Theorem to_standard_format_shape :
  forall (rt : Runtime) (raw : dict) (source : string),
    let txn := to_standard_format raw source in
    map fst txn
    = [ KStr "date"; KStr "amount"; KStr "merchant"; KStr "category";
        KStr "description"; KStr "external_id"; KStr "raw_payload";
        KStr "source"; KStr "transaction_hash" ]
    /\ get txn "source" = PStr source
    /\ get txn "raw_payload"
       = (if has_key raw "raw_payload" then get raw "raw_payload" else PDict raw)
    /\ get txn "transaction_hash" = PStr (generate_hash txn).
Proof.
  intros rt raw source txn. unfold txn.
  rewrite to_standard_format_explicit. cbv zeta.
  split; [reflexivity|]. split; [now get_all|].
  split; [get_all; apply get_default_get|].
  unfold generate_hash. get_all. reflexivity.
Qed.

(** X3. The fingerprint of a canonicalised row depends on the raw row
    only through the values its date, amount and merchant chains
    resolve to: two rows that resolve these three alike get the same
    [transaction_hash] under the same source tag, whatever keys (English
    or localized) carried the values and whatever else the rows hold. *)
Theorem to_standard_format_hash_by_resolved_fields :
  forall (rt : Runtime) (raw1 raw2 : dict) (source : string),
    first_truthy raw1 ["date"; "Date"; "created_at"; "timestamp"; "Дата"]
    = first_truthy raw2 ["date"; "Date"; "created_at"; "timestamp"; "Дата"] ->
    first_truthy raw1 ["amount"; "Amount"; "Сумма"; "value"]
    = first_truthy raw2 ["amount"; "Amount"; "Сумма"; "value"] ->
    first_truthy raw1 ["merchant"; "Merchant"; "recipient"; "payee"; "Получатель"]
    = first_truthy raw2 ["merchant"; "Merchant"; "recipient"; "payee"; "Получатель"] ->
    get (to_standard_format raw1 source) "transaction_hash"
    = get (to_standard_format raw2 source) "transaction_hash".
Proof.
  intros rt raw1 raw2 source Hd Ha Hm.
  rewrite !to_standard_format_explicit. cbv zeta. get_all.
  now rewrite Hd, Ha, Hm.
Qed.

Lemma to_standard_format_hash_by_resolved_fields_witness :
  get (to_standard_format
         [ (KStr "Дата", PStr "15.01.2025"); (KStr "Сумма", PStr "-1500");
           (KStr "Получатель", PStr "Макро"); (KStr "Описание", PStr "Оплата картой") ]
         "csv") "transaction_hash"
  = get (to_standard_format
           [ (KStr "id", PInt 7); (KStr "merchant", PStr "Макро");
             (KStr "amount", PStr "-1500"); (KStr "date", PStr "15.01.2025") ]
           "csv") "transaction_hash".
Proof.
  apply (@to_standard_format_hash_by_resolved_fields Sample.runtime); reflexivity.
Defined.

Lemma get_default_cons_eq (k' k : pykey) (v default : pyval) (rest : dict) :
  pykey_eqb k' k = true -> get_default ((k', v) :: rest) k default = v.
Proof. simpl; intros ->; reflexivity. Qed.

Lemma get_default_cons_ne (k' k : pykey) (v default : pyval) (rest : dict) :
  pykey_eqb k' k = false ->
  get_default ((k', v) :: rest) k default = get_default rest k default.
Proof. simpl; intros ->; reflexivity. Qed.

(** [to_standard_format] on a dictionary that already has the nine
    canonical keys. *)
Lemma to_standard_format_of_canonical (rt : Runtime)
      (d a m c de e rp s h : pyval) (source : string) :
  to_standard_format
    [ (KStr "date", d); (KStr "amount", a); (KStr "merchant", m);
      (KStr "category", c); (KStr "description", de); (KStr "external_id", e);
      (KStr "raw_payload", rp); (KStr "source", s); (KStr "transaction_hash", h) ]
    source
  = [ (KStr "date", settle d); (KStr "amount", settle a);
      (KStr "merchant", settle m); (KStr "category", settle c);
      (KStr "description", settle de); (KStr "external_id", PNone);
      (KStr "raw_payload", rp); (KStr "source", PStr source);
      (KStr "transaction_hash",
        PStr (SHA256.hexdigest (py_str (settle d) ++ "|" ++ py_str (settle a) ++ "|"
                                ++ py_str (settle m) ++ "|" ++ source))) ].
Proof.
  rewrite to_standard_format_explicit. cbv zeta.
  lazy [first_truthy get get_default pykey_eqb String.eqb Ascii.eqb Bool.eqb].
  rewrite ?py_or_none_l, ?py_or_none_r. reflexivity.
Qed.

(** X4. Canonicalising a canonical transaction again is not the
    identity, and settles after one more pass.  The second pass keeps
    [date], [amount], [merchant], [category] and [description] when they
    are truthy and turns them into [None] otherwise, always loses
    [external_id] (its candidate keys are [id], [transaction_id],
    [payment_id], not [external_id]), and keeps [raw_payload]; the
    fingerprint survives when [date], [amount] and [merchant] were
    truthy or [None]; a third pass changes nothing. *)
Theorem to_standard_format_twice :
  forall (rt : Runtime) (raw : dict) (source : string),
    let once := to_standard_format raw source in
    let twice := to_standard_format once source in
    (forall field,
        In field ["date"; "amount"; "merchant"; "category"; "description"] ->
        get twice field = settle (get once field))
    /\ get twice "external_id" = PNone
    /\ get twice "raw_payload" = get once "raw_payload"
    /\ ((forall field, In field ["date"; "amount"; "merchant"] ->
                       settle (get once field) = get once field) ->
        get twice "transaction_hash" = get once "transaction_hash")
    /\ to_standard_format twice source = twice.
Proof.
  intros rt raw source once twice. unfold twice, once.
  rewrite (to_standard_format_explicit rt raw). cbv zeta.
  set (d := first_truthy raw ["date"; "Date"; "created_at"; "timestamp"; "Дата"]).
  set (a := first_truthy raw ["amount"; "Amount"; "Сумма"; "value"]).
  set (m := first_truthy raw ["merchant"; "Merchant"; "recipient"; "payee"; "Получатель"]).
  set (c := first_truthy raw ["category"; "Category"; "Категория"]).
  set (de := first_truthy raw ["description"; "Description"; "note"; "Описание"]).
  set (e := finish "external_id" (first_truthy raw ["id"; "transaction_id"; "payment_id"])).
  set (rp := get_default raw "raw_payload" (PDict raw)).
  rewrite !to_standard_format_of_canonical.
  split; [| split; [| split; [| split]]].
  - intros field Hin. simpl in Hin.
    repeat (destruct Hin as [<- | Hin]; [now get_all|]). contradiction.
  - now get_all.
  - now get_all.
  - intros Hkeep.
    pose proof (Hkeep "date" (or_introl eq_refl)) as Hd.
    pose proof (Hkeep "amount" (or_intror (or_introl eq_refl))) as Ha.
    pose proof (Hkeep "merchant" (or_intror (or_intror (or_introl eq_refl)))) as Hm.
    revert Hd Ha Hm. get_all. now intros -> -> ->.
  - now rewrite !settle_settle.
Qed.

Lemma to_standard_format_twice_witness :
  let raw := [ (KStr "id", PInt 17); (KStr "date", PStr "2025-01-15");
               (KStr "value", PInt 0); (KStr "payee", PStr "Korzinka") ] in
  let once := to_standard_format raw "api" in
  let twice := to_standard_format once "api" in
  get once "amount" = PInt 0
  /\ get twice "amount" = PNone
  /\ get once "external_id" = PStr "17"
  /\ get twice "external_id" = PNone
  /\ get twice "merchant" = PStr "Korzinka".
Proof.
  intros raw once twice.
  destruct (@to_standard_format_twice Sample.runtime raw "api")
    as (Hfields & Hid & _).
  unfold twice, once.
  split; [reflexivity|]. split.
  - rewrite (Hfields "amount") by (simpl; tauto). reflexivity.
  - split; [reflexivity|]. split; [exact Hid|].
    rewrite (Hfields "merchant") by (simpl; tauto). reflexivity.
Defined.

(* ================================================================= *)
(** ** The webhook path *)

Lemma uzum_webhook_to_standard_explicit (rt : Runtime) (payload : dict)
      (event_type : string) (r : dict) :
  uzum_webhook_to_standard payload event_type = ok r ->
  let ts_ms := first_truthy payload ["timestamp"; "transTime"; "confirmTime"] in
  exists date,
    (if truthy ts_ms
     then exists s, epoch_ms_isoformat ts_ms = ok s /\ date = PStr s
     else date = PNone)
    /\ r = [ (KStr "date", date);
             (KStr "amount", get payload "amount");
             (KStr "merchant", PStr "Uzum Bank");
             (KStr "category", PNone);
             (KStr "description", PStr ("Uzum webhook: " ++ event_type));
             (KStr "external_id", get payload "transId");
             (KStr "raw_payload", PDict payload);
             (KStr "source", PStr "uzum_webhook") ].
Proof.
  intros Hr ts_ms. unfold uzum_webhook_to_standard in Hr.
  replace (get payload "timestamp" <|> get payload "transTime"
           <|> get payload "confirmTime") with ts_ms in Hr
    by (unfold ts_ms; simpl; symmetry; apply py_or_assoc).
  destruct (truthy ts_ms).
  - destruct (epoch_ms_isoformat ts_ms) as [e|s]; simpl in Hr; [discriminate|].
    injection Hr as <-. exists (PStr s). split; [eauto | reflexivity].
  - simpl in Hr. injection Hr as <-. exists PNone. split; reflexivity.
Qed.

Lemma webhook_transaction_explicit (rt : Runtime) (payload : dict)
      (event_type : string) (r : dict) :
  uzum_webhook_to_standard payload event_type = ok r ->
  to_standard_format r "uzum_webhook"
  = [ (KStr "date", settle (get r "date"));
      (KStr "amount", settle (get payload "amount"));
      (KStr "merchant", PStr "Uzum Bank");
      (KStr "category", PNone);
      (KStr "description", PStr ("Uzum webhook: " ++ event_type));
      (KStr "external_id", PNone);
      (KStr "raw_payload", PDict payload);
      (KStr "source", PStr "uzum_webhook");
      (KStr "transaction_hash",
        PStr (SHA256.hexdigest
                (py_str (settle (get r "date")) ++ "|"
                 ++ py_str (settle (get payload "amount")) ++ "|"
                 ++ "Uzum Bank" ++ "|" ++ "uzum_webhook"))) ].
Proof.
  intros Hr. destruct (@uzum_webhook_to_standard_explicit _ _ _ _ Hr) as (date & _ & ->).
  rewrite to_standard_format_explicit. cbv zeta.
  lazy [first_truthy get get_default pykey_eqb String.eqb Ascii.eqb Bool.eqb].
  rewrite ?py_or_none_l, ?py_or_none_r. reflexivity.
Qed.

(** X5. The transaction [ingest_from_uzum_webhook] loads: merchant
    ["Uzum Bank"], source ["uzum_webhook"], the description naming the
    event type, no category, the payload itself as [raw_payload], the
    translator's date and the payload's amount (each replaced by [None]
    when falsy) and never an [external_id]: the translator files
    [transId] under the key [external_id], which is not among the keys
    the canonicaliser reads the identifier from. *)
Theorem webhook_transaction_fields :
  forall (rt : Runtime) (payload : dict) (event_type : string) (r : dict),
    uzum_webhook_to_standard payload event_type = ok r ->
    let txn := to_standard_format r "uzum_webhook" in
    get txn "merchant" = PStr "Uzum Bank"
    /\ get txn "source" = PStr "uzum_webhook"
    /\ get txn "description" = PStr ("Uzum webhook: " ++ event_type)
    /\ get txn "category" = PNone
    /\ get txn "raw_payload" = PDict payload
    /\ get txn "date" = settle (get r "date")
    /\ get txn "amount" = settle (get payload "amount")
    /\ get r "external_id" = get payload "transId"
    /\ get txn "external_id" = PNone.
Proof.
  intros rt payload event_type r Hr txn. unfold txn.
  rewrite (@webhook_transaction_explicit _ _ _ _ Hr).
  destruct (@uzum_webhook_to_standard_explicit _ _ _ _ Hr) as (date & _ & Hshape).
  repeat split; try (now get_all).
  rewrite Hshape. now get_all.
Qed.

Lemma webhook_transaction_fields_witness :
  let payload := [ (KStr "transId", PStr "tx-1"); (KStr "confirmTime", PInt 1700000000123);
                   (KStr "amount", PInt 50000) ] in
  let r := [ (KStr "date", PStr "2023-11-14T22:13:20.123000");
             (KStr "amount", PInt 50000);
             (KStr "merchant", PStr "Uzum Bank");
             (KStr "category", PNone);
             (KStr "description", PStr "Uzum webhook: payment.confirmed");
             (KStr "external_id", PStr "tx-1");
             (KStr "raw_payload", PDict payload);
             (KStr "source", PStr "uzum_webhook") ] in
  uzum_webhook_to_standard payload "payment.confirmed" = ok r
  /\ get r "external_id" = PStr "tx-1"
  /\ get (to_standard_format r "uzum_webhook") "external_id" = PNone
  /\ get (to_standard_format r "uzum_webhook") "date" = PStr "2023-11-14T22:13:20.123000".
Proof.
  intros payload r.
  assert (Hr : uzum_webhook_to_standard payload "payment.confirmed" = ok r)
    by reflexivity.
  destruct (@webhook_transaction_fields Sample.runtime payload "payment.confirmed" r Hr)
    as (_ & _ & _ & _ & _ & Hdate & _ & Hid & Hlost).
  split; [exact Hr|]. split; [reflexivity|]. split; [exact Hlost|].
  rewrite Hdate. reflexivity.
Defined.

(** X6. The fingerprint of a webhook transaction is decided by the
    timestamp the translator picks and by the payload's amount alone:
    two deliveries that agree on these get the same [transaction_hash],
    whatever their [transId], their other fields and their event
    types. *)
Theorem webhook_fingerprint_by_time_and_amount :
  forall (rt : Runtime) (payload1 payload2 : dict) (event1 event2 : string)
         (r1 r2 : dict),
    uzum_webhook_to_standard payload1 event1 = ok r1 ->
    uzum_webhook_to_standard payload2 event2 = ok r2 ->
    first_truthy payload1 ["timestamp"; "transTime"; "confirmTime"]
    = first_truthy payload2 ["timestamp"; "transTime"; "confirmTime"] ->
    get payload1 "amount" = get payload2 "amount" ->
    get (to_standard_format r1 "uzum_webhook") "transaction_hash"
    = get (to_standard_format r2 "uzum_webhook") "transaction_hash".
Proof.
  intros rt payload1 payload2 event1 event2 r1 r2 H1 H2 Hts Hamount.
  rewrite (@webhook_transaction_explicit _ _ _ _ H1), (@webhook_transaction_explicit _ _ _ _ H2).
  get_all. rewrite Hamount.
  destruct (@uzum_webhook_to_standard_explicit _ _ _ _ H1) as (d1 & Hd1 & ->).
  destruct (@uzum_webhook_to_standard_explicit _ _ _ _ H2) as (d2 & Hd2 & ->).
  get_all. cbv zeta in Hd1, Hd2. rewrite Hts in Hd1.
  destruct (truthy (first_truthy payload2 ["timestamp"; "transTime"; "confirmTime"])).
  - destruct Hd1 as (s1 & Hs1 & ->). destruct Hd2 as (s2 & Hs2 & ->).
    rewrite Hs1 in Hs2. now injection Hs2 as ->.
  - now rewrite Hd1, Hd2.
Qed.

Lemma webhook_fingerprint_by_time_and_amount_witness :
  let payload1 := [ (KStr "transId", PStr "tx-1"); (KStr "timestamp", PInt 1700000000123);
                    (KStr "amount", PInt 50000) ] in
  let payload2 := [ (KStr "amount", PInt 50000); (KStr "timestamp", PInt 0);
                    (KStr "transTime", PInt 1700000000123);
                    (KStr "transId", PStr "tx-2") ] in
  let record payload event transId :=
    [ (KStr "date", PStr "2023-11-14T22:13:20.123000");
      (KStr "amount", PInt 50000);
      (KStr "merchant", PStr "Uzum Bank");
      (KStr "category", PNone);
      (KStr "description", PStr ("Uzum webhook: " ++ event));
      (KStr "external_id", PStr transId);
      (KStr "raw_payload", PDict payload);
      (KStr "source", PStr "uzum_webhook") ] in
  let r1 := record payload1 "payment.created" "tx-1" in
  let r2 := record payload2 "payment.confirmed" "tx-2" in
  uzum_webhook_to_standard payload1 "payment.created" = ok r1
  /\ uzum_webhook_to_standard payload2 "payment.confirmed" = ok r2
  /\ get r1 "external_id" <> get r2 "external_id"
  /\ get (to_standard_format r1 "uzum_webhook") "transaction_hash"
     = get (to_standard_format r2 "uzum_webhook") "transaction_hash".
Proof.
  intros payload1 payload2 record r1 r2.
  assert (H1 : uzum_webhook_to_standard payload1 "payment.created" = ok r1)
    by reflexivity.
  assert (H2 : uzum_webhook_to_standard payload2 "payment.confirmed" = ok r2)
    by reflexivity.
  split; [exact H1|]. split; [exact H2|]. split; [discriminate|].
  apply (@webhook_fingerprint_by_time_and_amount Sample.runtime
           payload1 payload2 "payment.created" "payment.confirmed" r1 r2 H1 H2);
    reflexivity.
Defined.

(* ================================================================= *)
(** ** The loader on the reference store *)

Lemma getitem_absent (d : dict) (k : string) :
  has_key d k = false -> getitem d k = raise (KeyError k).
Proof.
  unfold has_key. induction d as [|[k' v] rest IH]; simpl; [reflexivity|].
  destruct (pykey_eqb k' k); simpl; [discriminate | exact IH].
Qed.

Lemma find_none_existsb {A} (f : A -> bool) (l : list A) :
  find f l = None -> existsb f l = false.
Proof.
  induction l as [|x l IH]; simpl; [reflexivity|].
  destruct (f x); simpl; [discriminate | exact IH].
Qed.

Lemma insert_all_app (rows1 rows2 table : list models.Transaction) :
  MemDb.index_insert_all table (rows1 ++ rows2)
  = match MemDb.index_insert_all table rows1 with
    | Some table' => MemDb.index_insert_all table' rows2
    | None => None
    end.
Proof.
  revert table. induction rows1 as [|row rows1 IH]; intros table; simpl; [reflexivity|].
  destruct (MemDb.index_insert table row); [apply IH | reflexivity].
Qed.

Lemma insert_some (table : list models.Transaction) (row : models.Transaction)
      (table' : list models.Transaction) :
  MemDb.index_insert table row = Some table' -> table' = (table ++ [row])%list.
Proof.
  unfold MemDb.index_insert.
  destruct (models.transaction_hash row);
    try destruct (existsb _ table); intros H; now inversion H.
Qed.

Lemma insert_all_some (rows : list models.Transaction) :
  forall table table',
    MemDb.index_insert_all table rows = Some table' -> table' = (table ++ rows)%list.
Proof.
  induction rows as [|row rows IH]; intros table table' H; simpl in H.
  - injection H as <-. now rewrite app_nil_r.
  - destruct (MemDb.index_insert table row) as [t1|] eqn:E; [|discriminate].
    apply insert_some in E. subst t1. rewrite (IH _ _ H), <- app_assoc. reflexivity.
Qed.

Section StoreProperties.
Context {rt : Runtime} {schema : Schema}.
Variables (user_id : Z) (account_id : option Z).

Lemma stage_memdb_any (txn : dict) (db : MemDb.t) :
  (snd (stage user_id account_id txn db) = db
   /\ fst (stage user_id account_id txn db) <> ok Inserted)
  \/ exists row,
       stage user_id account_id txn db
       = (ok Inserted,
          MemDb.Db (MemDb.committed db) (MemDb.pending db ++ [row]) (MemDb.autoflush db))
       /\ owned user_id account_id row.
Proof.
  unfold stage, bind, lift, ret.
  destruct (getitem txn "transaction_hash") as [e|h]; [left; split; [reflexivity | discriminate]|].
  cbn [select_first_by_hash MemDb.session].
  destruct (find (MemDb.hash_matches h) (MemDb.visible db));
    [left; split; [reflexivity | discriminate]|].
  destruct (getitem txn "amount"); [left; split; [reflexivity | discriminate]|].
  destruct (getitem txn "merchant"); [left; split; [reflexivity | discriminate]|].
  destruct (getitem txn "category"); [left; split; [reflexivity | discriminate]|].
  destruct (getitem txn "description"); [left; split; [reflexivity | discriminate]|].
  destruct (getitem txn "external_id"); [left; split; [reflexivity | discriminate]|].
  destruct (getitem txn "raw_payload"); [left; split; [reflexivity | discriminate]|].
  right. eexists. split; [reflexivity|]. repeat split.
Qed.

Lemma loop_memdb_any (transactions : list dict) :
  forall idx t db,
    exists t' new,
      loop user_id account_id idx transactions t db
      = (t', MemDb.Db (MemDb.committed db) (MemDb.pending db ++ new) (MemDb.autoflush db))
      /\ saved t' = saved t + Z.of_nat (List.length new)
      /\ Forall (owned user_id account_id) new.
Proof.
  induction transactions as [|txn rest IH]; intros idx t db.
  - exists t, []. rewrite app_nil_r. destruct db. simpl.
    repeat split; [lia | constructor].
  - cbn [loop]. unfold iteration.
    destruct (stage_memdb_any txn db) as [[Hsame Hnot] | (row & Hrow & Howned)].
    + destruct (stage user_id account_id txn db) as [r db0]. simpl in *. subst db0.
      destruct r as [e|[|]]; try (exfalso; now apply Hnot);
        cbv beta iota;
        match goal with
        | |- context [loop _ _ _ rest ?t0 db] =>
            destruct (IH (idx + 1) t0 db) as (t' & new & Hloop & Hsaved & Hown)
        end;
        exists t', new; rewrite Hloop; repeat split; assumption.
    + rewrite Hrow. unfold ok. cbv beta iota.
      match goal with
      | |- context [loop _ _ _ rest ?t0 ?db0] =>
          destruct (IH (idx + 1) t0 db0) as (t' & new & Hloop & Hsaved & Hown)
      end.
      exists t', (row :: new). rewrite Hloop.
      cbn [MemDb.committed MemDb.pending MemDb.autoflush saved] in *.
      rewrite <- app_assoc. repeat split.
      * rewrite Hsaved. cbn [List.length]. lia.
      * now constructor.
Qed.

End StoreProperties.

(** X7. On the reference store, started with nothing staged,
    [save_to_database] is all or nothing and counts what it stores:
    when it returns, the table is the old table followed by exactly
    [saved] new rows, each owned by the caller's user and account and
    unprocessed; when it raises, the table is the old table.  Rows that
    were there are never changed, and nothing stays staged. *)
Theorem save_to_database_persists_what_it_counts :
  forall (rt : Runtime) (schema : Schema) (user_id : Z) (account_id : option Z)
         (transactions : list dict) (db : MemDb.t),
    MemDb.pending db = [] ->
    match save_to_database user_id account_id transactions db with
    | (inr d, db') =>
        exists new,
          get d "saved" = PInt (Z.of_nat (List.length new))
          /\ MemDb.committed db' = (MemDb.committed db ++ new)%list
          /\ MemDb.pending db' = []
          /\ Forall (owned user_id account_id) new
    | (inl e, db') =>
        MemDb.committed db' = MemDb.committed db /\ MemDb.pending db' = []
    end.
Proof.
  intros rt schema user_id account_id transactions db Hpending.
  unfold save_to_database.
  destruct (loop_memdb_any user_id account_id transactions 1 (Tally 0 0 []) db)
    as (t & new & Hloop & Hsaved & Hown).
  rewrite Hloop, Hpending. cbn [app]. rewrite memdb_commit.
  cbn [MemDb.committed MemDb.pending MemDb.autoflush].
  destruct (MemDb.index_insert_all (MemDb.committed db) new) as [table|] eqn:E;
    [destruct (forallb accepts new)|].
  - apply insert_all_some in E. subst table.
    exists new. unfold result_dict. get_all. rewrite Hsaved.
    repeat split; try assumption.
  - cbn [rollback MemDb.session MemDb.committed MemDb.pending].
    split; reflexivity.
  - cbn [rollback MemDb.session MemDb.committed MemDb.pending].
    split; reflexivity.
Qed.

Lemma save_to_database_persists_what_it_counts_witness :
  let day d := to_standard_format [(KStr "date", PStr d); (KStr "amount", PStr "-12000")] "csv" in
  let broken := [(KStr "transaction_hash", PStr "00"); (KStr "amount", PInt 1)] in
  let db := MemDb.Db [staged_row 3 None (day "2025-01-15")] [] true in
  exists d db' new,
    save_to_database 7 (Some 1) [day "2025-01-15"; broken; day "2025-01-16"] db = (ok d, db')
    /\ get d "saved" = PInt 1
    /\ List.length new = 1%nat
    /\ MemDb.committed db' = (MemDb.committed db ++ new)%list.
Proof.
  intros day broken db.
  pose proof (@save_to_database_persists_what_it_counts Sample.runtime sample_schema 7 (Some 1)
                [day "2025-01-15"; broken; day "2025-01-16"] db eq_refl) as H.
  destruct (save_to_database 7 (Some 1) [day "2025-01-15"; broken; day "2025-01-16"] db)
    as [[e|d] db'] eqn:Hrun.
  - exfalso. vm_compute in Hrun. discriminate.
  - destruct H as (new & Hsaved & Hcommitted & _ & _).
    exists d, db', new. split; [reflexivity|].
    assert (Hone : get d "saved" = PInt 1).
    { vm_compute in Hrun. injection Hrun as <- _. reflexivity. }
    split; [exact Hone|]. split; [|exact Hcommitted].
    rewrite Hone in Hsaved. injection Hsaved as Hlen. lia.
Defined.

(** Closes the case where [stage] subscripts a key the record lacks:
    the subscript raises and the session is the one it started from. *)
Ltac absent_key key :=
  match goal with
  | Habsent : has_key ?txn (KStr key) = false |- _ =>
      rewrite (getitem_absent _ _ Habsent);
      split; [reflexivity | right; exists key; simpl; tauto]
  end.

(** X8. On the reference store, a record that lacks any of the seven
    keys the loader subscripts is never staged: the store is left as it
    was, and the record either counts as a duplicate (its fingerprint
    is already visible) or raises [KeyError] for a key it lacks. *)
Theorem stage_never_stages_incomplete_record :
  forall (rt : Runtime) (schema : Schema) (user_id : Z) (account_id : option Z)
         (txn : dict) (db : MemDb.t) (k : string),
    In k loader_keys ->
    has_key txn k = false ->
    snd (stage user_id account_id txn db) = db
    /\ (fst (stage user_id account_id txn db) = ok Duplicate
        \/ exists missing,
             In missing loader_keys /\ has_key txn missing = false
             /\ fst (stage user_id account_id txn db) = raise (KeyError missing)).
Proof.
  intros rt schema user_id account_id txn db k Hin Hk.
  unfold stage, bind, lift, ret.
  destruct (has_key txn "transaction_hash") eqn:Hh; [|absent_key "transaction_hash"].
  rewrite (getitem_present _ _ Hh).
  cbn [select_first_by_hash MemDb.session]. unfold ok. cbv beta iota.
  destruct (find (MemDb.hash_matches (get txn "transaction_hash")) (MemDb.visible db));
    [split; [reflexivity | now left]|].
  destruct (has_key txn "amount") eqn:H1; [|absent_key "amount"].
  rewrite (getitem_present _ _ H1). unfold ok. cbv beta iota.
  destruct (has_key txn "merchant") eqn:H2; [|absent_key "merchant"].
  rewrite (getitem_present _ _ H2). unfold ok. cbv beta iota.
  destruct (has_key txn "category") eqn:H3; [|absent_key "category"].
  rewrite (getitem_present _ _ H3). unfold ok. cbv beta iota.
  destruct (has_key txn "description") eqn:H4; [|absent_key "description"].
  rewrite (getitem_present _ _ H4). unfold ok. cbv beta iota.
  destruct (has_key txn "external_id") eqn:H5; [|absent_key "external_id"].
  rewrite (getitem_present _ _ H5). unfold ok. cbv beta iota.
  destruct (has_key txn "raw_payload") eqn:H6; [|absent_key "raw_payload"].
  exfalso. simpl in Hin.
  repeat (destruct Hin as [<- | Hin]; [congruence|]). contradiction.
Qed.

Lemma stage_never_stages_incomplete_record_witness :
  let txn := [(KStr "transaction_hash", PStr "00"); (KStr "amount", PInt 1)] in
  let db := MemDb.Db [] [] true in
  snd (stage 7 (Some 1) txn db) = db
  /\ fst (stage 7 (Some 1) txn db) = raise (KeyError "merchant").
Proof.
  intros txn db.
  destruct (@stage_never_stages_incomplete_record Sample.runtime sample_schema 7 (Some 1) txn db
              "description" (or_intror (or_intror (or_intror (or_intror (or_introl eq_refl)))))
              eq_refl) as [Hsame _].
  split; [exact Hsame | reflexivity].
Defined.

Section Batches.
Context {rt : Runtime} {schema : Schema}.
Variables (user_id : Z) (account_id : option Z).

(** With [autoflush], what is staged always passes the unique index:
    the lookup has seen the table and everything staged before. *)
Lemma loop_autoflush_commits (txns : list dict) :
  forall idx t db,
    Forall canonical txns ->
    (forall txn, In txn txns -> accepts (staged_row user_id account_id txn) = true) ->
    MemDb.autoflush db = true ->
    MemDb.index_insert_all (MemDb.committed db) (MemDb.pending db)
    = Some (MemDb.committed db ++ MemDb.pending db)%list ->
    forallb accepts (MemDb.pending db) = true ->
    exists t' staged,
      loop user_id account_id idx txns t db
      = (t', MemDb.Db (MemDb.committed db) staged true)
      /\ MemDb.index_insert_all (MemDb.committed db) staged
         = Some (MemDb.committed db ++ staged)%list
      /\ forallb accepts staged = true
      /\ errors t' = errors t.
Proof.
  induction txns as [|txn rest IH]; intros idx t db Hcan Htaken Hauto Hinv Hacc.
  - exists t, (MemDb.pending db). destruct db as [c p a]. simpl in *. subst a. auto.
  - inversion Hcan as [|? ? Hc Hcrest]; subst.
    assert (Htaken' : forall txn', In txn' rest ->
              accepts (staged_row user_id account_id txn') = true).
    { intros txn' Hin'. apply Htaken. now right. }
    cbn [loop]. unfold iteration. rewrite stage_memdb by assumption.
    destruct (find (MemDb.hash_matches (get txn "transaction_hash")) (MemDb.visible db))
      as [row|] eqn:Hfind.
    + unfold ok. cbv beta iota.
      destruct (IH (idx + 1) (Tally (saved t) (duplicates t + 1) (errors t)) db
                   Hcrest Htaken' Hauto Hinv Hacc)
        as (t' & staged & Hloop & Hok & Hall & Herr).
      exists t', staged. rewrite Hloop. auto.
    + unfold ok. cbv beta iota.
      set (db1 := MemDb.Db (MemDb.committed db)
                           (MemDb.pending db ++ [staged_row user_id account_id txn])
                           (MemDb.autoflush db)).
      assert (Hinv1 : MemDb.index_insert_all (MemDb.committed db1) (MemDb.pending db1)
                      = Some (MemDb.committed db1 ++ MemDb.pending db1)%list).
      { cbn [db1 MemDb.committed MemDb.pending].
        rewrite insert_all_app, Hinv. cbn [MemDb.index_insert_all].
        unfold MemDb.index_insert.
        destruct Hc as [_ [h Hh]].
        change (models.transaction_hash (staged_row user_id account_id txn))
          with (get txn "transaction_hash").
        apply find_none_existsb in Hfind. unfold MemDb.visible in Hfind.
        rewrite Hauto in Hfind. rewrite Hh in *. rewrite Hfind.
        now rewrite app_assoc. }
      assert (Hacc1 : forallb accepts (MemDb.pending db1) = true).
      { cbn [db1 MemDb.pending]. rewrite forallb_app, Hacc. cbn [forallb].
        rewrite (Htaken txn (or_introl eq_refl)). reflexivity. }
      destruct (IH (idx + 1) (Tally (saved t + 1) (duplicates t) (errors t)) db1
                   Hcrest Htaken' Hauto Hinv1 Hacc1)
        as (t' & staged & Hloop & Hok & Hall & Herr).
      exists t', staged. rewrite Hloop. auto.
Qed.

Lemma insert_all_seen (rows : list models.Transaction) :
  forall table h row,
    In row rows ->
    models.transaction_hash row = PStr h ->
    existsb (MemDb.hash_matches (PStr h)) table = true ->
    MemDb.index_insert_all table rows = None.
Proof.
  induction rows as [|r rows IH]; intros table h row Hin Hh Hseen; [contradiction|].
  cbn [MemDb.index_insert_all].
  destruct (MemDb.index_insert table r) as [table'|] eqn:E; [|reflexivity].
  pose proof (insert_some _ _ E) as ->.
  destruct Hin as [-> | Hin].
  - unfold MemDb.index_insert in E. rewrite Hh, Hseen in E. discriminate.
  - apply IH with (h := h) (row := row); try assumption.
    rewrite existsb_app, Hseen. reflexivity.
Qed.

Lemma insert_all_repeated (before between after : list models.Transaction)
      (row row' : models.Transaction) (h : string) :
  models.transaction_hash row = PStr h ->
  models.transaction_hash row' = PStr h ->
  forall table,
    MemDb.index_insert_all table (before ++ row :: between ++ row' :: after) = None.
Proof.
  intros Hh Hh'. induction before as [|r before IH]; intros table.
  - cbn [app MemDb.index_insert_all].
    destruct (MemDb.index_insert table row) as [table'|] eqn:E; [|reflexivity].
    pose proof (insert_some _ _ E) as ->.
    apply insert_all_seen with (h := h) (row := row').
    + apply in_or_app. right. now left.
    + assumption.
    + rewrite existsb_app. apply orb_true_iff. right. simpl.
      unfold MemDb.hash_matches. rewrite Hh, String.eqb_refl. reflexivity.
  - cbn [app MemDb.index_insert_all].
    destruct (MemDb.index_insert table r); [apply IH | reflexivity].
Qed.

(** Without [autoflush] a lookup sees the table only, so everything
    whose fingerprint is not in the table is staged. *)
Lemma loop_without_autoflush (txns : list dict) :
  forall idx t db,
    Forall canonical txns ->
    MemDb.autoflush db = false ->
    (forall txn, In txn txns ->
                 existsb (MemDb.hash_matches (get txn "transaction_hash"))
                         (MemDb.committed db) = false) ->
    loop user_id account_id idx txns t db
    = (Tally (saved t + Z.of_nat (List.length txns)) (duplicates t) (errors t),
       MemDb.Db (MemDb.committed db)
                (MemDb.pending db ++ map (staged_row user_id account_id) txns)
                false).
Proof.
  induction txns as [|txn rest IH]; intros idx t db Hcan Hauto Hfresh.
  - simpl. rewrite Z.add_0_r, app_nil_r. destruct t, db. simpl in *. now subst.
  - inversion Hcan as [|? ? Hc Hcrest]; subst.
    cbn [loop]. unfold iteration. rewrite stage_memdb by assumption.
    unfold MemDb.visible. rewrite Hauto, app_nil_r.
    rewrite find_existsb_false by (apply Hfresh; now left).
    unfold ok. cbv beta iota. rewrite IH.
    + cbn [saved duplicates errors MemDb.committed MemDb.pending].
      rewrite <- app_assoc. cbn [map app List.length]. do 2 f_equal. lia.
    + assumption.
    + reflexivity.
    + intros txn' Hin'. apply Hfresh. now right.
Qed.

End Batches.

(** X9. On the reference store with [autoflush], started with nothing
    staged, a batch of canonical transactions whose rows the table
    takes always commits, repeats inside the batch included:
    [save_to_database] raises nothing and reports no row error, so
    every record is either saved or a duplicate. *)
Theorem save_to_database_autoflush_always_commits :
  forall (rt : Runtime) (schema : Schema) (user_id : Z) (account_id : option Z)
         (txns : list dict) (db : MemDb.t),
    Forall canonical txns ->
    (forall txn, In txn txns -> accepts (staged_row user_id account_id txn) = true) ->
    MemDb.autoflush db = true ->
    MemDb.pending db = [] ->
    exists s dup db',
      save_to_database user_id account_id txns db
      = (ok [ (KStr "saved", PInt s); (KStr "duplicates", PInt dup);
              (KStr "errors", PList []) ], db')
      /\ s + dup = Z.of_nat (List.length txns).
Proof.
  intros rt schema user_id account_id txns db Hcan Htaken Hauto Hpending.
  unfold save_to_database.
  pose proof (loop_counts user_id account_id txns 1 (Tally 0 0 []) db) as Hcount.
  destruct (loop_autoflush_commits user_id account_id 1 (Tally 0 0 []) db
              Hcan Htaken Hauto)
    as (t & staged & Hloop & Hok & Hall & Herr).
  { rewrite Hpending. simpl. now rewrite app_nil_r. }
  { now rewrite Hpending. }
  rewrite Hloop in *. rewrite memdb_commit.
  cbn [MemDb.committed MemDb.pending MemDb.autoflush].
  rewrite Hok, Hall. unfold tally_count in Hcount. simpl in Hcount, Herr.
  exists (saved t), (duplicates t). eexists. split.
  - unfold result_dict. rewrite Herr. reflexivity.
  - rewrite Herr in Hcount. simpl in Hcount. lia.
Qed.

Lemma save_to_database_autoflush_always_commits_witness :
  let day d := to_standard_format [(KStr "date", PStr d); (KStr "amount", PStr "-12000")] "csv" in
  fst (save_to_database 7 (Some 1)
         [day "2025-01-15"; day "2025-01-16"; day "2025-01-15"] (MemDb.Db [] [] true))
  = ok [ (KStr "saved", PInt 2); (KStr "duplicates", PInt 1); (KStr "errors", PList []) ].
Proof.
  intros day.
  destruct (@save_to_database_autoflush_always_commits Sample.runtime sample_schema
              7 (Some 1)
              [day "2025-01-15"; day "2025-01-16"; day "2025-01-15"] (MemDb.Db [] [] true))
    as (s & dup & db' & Hrun & _).
  - unfold day.
    repeat (apply Forall_cons; [apply to_standard_format_canonical|]).
    apply Forall_nil.
  - intros txn [<- | [<- | [<- | []]]]; vm_compute; reflexivity.
  - reflexivity.
  - reflexivity.
  - vm_compute. reflexivity.
Defined.

(** X10. On the reference store without [autoflush] the lookup cannot
    see what the same call has staged: when two canonical transactions
    of one batch share a fingerprint that is not in the table, both are
    staged, the commit fails on the unique index, and the whole batch is
    rolled back, the other records with it. *)
Theorem save_to_database_repeat_sinks_batch :
  forall (rt : Runtime) (schema : Schema) (user_id : Z) (account_id : option Z)
         (before between after : list dict) (txn txn' : dict) (db : MemDb.t),
    let txns := (before ++ txn :: between ++ txn' :: after)%list in
    Forall canonical txns ->
    get txn "transaction_hash" = get txn' "transaction_hash" ->
    MemDb.autoflush db = false ->
    MemDb.pending db = [] ->
    (forall t, In t txns ->
               existsb (MemDb.hash_matches (get t "transaction_hash"))
                       (MemDb.committed db) = false) ->
    save_to_database user_id account_id txns db
    = (raise MemDb.integrity_error, MemDb.Db (MemDb.committed db) [] false).
Proof.
  intros rt schema user_id account_id before between after txn txn' db txns
         Hcan Hsame Hauto Hpending Hfresh.
  unfold save_to_database.
  rewrite loop_without_autoflush by assumption.
  rewrite memdb_commit. cbn [MemDb.committed MemDb.pending MemDb.autoflush].
  rewrite Hpending. cbn [app]. unfold txns.
  rewrite map_app. cbn [map]. rewrite map_app. cbn [map].
  assert (Hc : canonical txn).
  { rewrite Forall_forall in Hcan. apply Hcan. unfold txns.
    apply in_or_app. right. now left. }
  destruct Hc as [_ [h Hh]].
  rewrite (@insert_all_repeated _ _ _ _ _ h); [reflexivity | exact Hh |].
  change (models.transaction_hash (staged_row user_id account_id txn'))
    with (get txn' "transaction_hash"). now rewrite <- Hsame.
Qed.

Lemma save_to_database_repeat_sinks_batch_witness :
  let day d := to_standard_format [(KStr "date", PStr d); (KStr "amount", PStr "-12000")] "csv" in
  save_to_database 7 (Some 1)
    [day "2025-01-14"; day "2025-01-15"; day "2025-01-16"; day "2025-01-15"]
    (MemDb.Db [] [] false)
  = (raise MemDb.integrity_error, MemDb.Db [] [] false).
Proof.
  intros day.
  apply (@save_to_database_repeat_sinks_batch Sample.runtime sample_schema 7 (Some 1)
           [day "2025-01-14"] [day "2025-01-16"] [] (day "2025-01-15") (day "2025-01-15")
           (MemDb.Db [] [] false)).
  - unfold day.
    repeat (apply Forall_cons; [apply to_standard_format_canonical|]).
    apply Forall_nil.
  - reflexivity.
  - reflexivity.
  - reflexivity.
  - intros t Hin. reflexivity.
Defined.

(** X11. On the reference store with [autoflush], two rows of one
    batch that resolve to the same date, amount and merchant are stored
    once when the table takes the first: the first is saved, the second
    counts as a duplicate, and the row that is kept carries the first
    one's category, description and payload. *)
Theorem save_to_database_first_copy_wins :
  forall (rt : Runtime) (schema : Schema) (user_id : Z) (account_id : option Z)
         (raw1 raw2 : dict) (source : string) (db : MemDb.t),
    first_truthy raw1 ["date"; "Date"; "created_at"; "timestamp"; "Дата"]
    = first_truthy raw2 ["date"; "Date"; "created_at"; "timestamp"; "Дата"] ->
    first_truthy raw1 ["amount"; "Amount"; "Сумма"; "value"]
    = first_truthy raw2 ["amount"; "Amount"; "Сумма"; "value"] ->
    first_truthy raw1 ["merchant"; "Merchant"; "recipient"; "payee"; "Получатель"]
    = first_truthy raw2 ["merchant"; "Merchant"; "recipient"; "payee"; "Получатель"] ->
    MemDb.autoflush db = true ->
    MemDb.pending db = [] ->
    existsb (MemDb.hash_matches (get (to_standard_format raw1 source) "transaction_hash"))
            (MemDb.committed db) = false ->
    accepts (staged_row user_id account_id (to_standard_format raw1 source)) = true ->
    save_to_database user_id account_id
      [to_standard_format raw1 source; to_standard_format raw2 source] db
    = (ok [ (KStr "saved", PInt 1); (KStr "duplicates", PInt 1);
            (KStr "errors", PList []) ],
       MemDb.Db (MemDb.committed db
                 ++ [staged_row user_id account_id (to_standard_format raw1 source)])
                [] true).
Proof.
  intros rt schema user_id account_id raw1 raw2 source db
         Hd Ha Hm Hauto Hpending Hfresh Htaken.
  assert (Hsame : get (to_standard_format raw2 source) "transaction_hash"
                  = get (to_standard_format raw1 source) "transaction_hash").
  { rewrite !to_standard_format_explicit. cbv zeta. get_all. now rewrite Hd, Ha, Hm. }
  pose proof (to_standard_format_canonical rt raw1 source) as Hc1.
  pose proof (to_standard_format_canonical rt raw2 source) as Hc2.
  unfold save_to_database. cbn [loop]. unfold iteration.
  rewrite stage_memdb by assumption.
  unfold MemDb.visible at 1. rewrite Hauto, Hpending, app_nil_r.
  rewrite (find_existsb_false _ _ Hfresh). unfold ok. cbv beta iota.
  rewrite stage_memdb by assumption.
  unfold MemDb.visible. cbn [MemDb.committed MemDb.pending MemDb.autoflush app].
  rewrite Hsame.
  destruct (@find_existsb_true _
              (MemDb.hash_matches (get (to_standard_format raw1 source) "transaction_hash"))
              (MemDb.committed db
               ++ [staged_row user_id account_id (to_standard_format raw1 source)]))
    as [row ->].
  { rewrite existsb_app. apply orb_true_iff. right. cbn [existsb].
    rewrite hash_matches_own by assumption. reflexivity. }
  unfold ok. cbv beta iota. cbn [loop]. rewrite memdb_commit.
  cbn [MemDb.committed MemDb.pending MemDb.autoflush saved duplicates errors].
  cbn [MemDb.index_insert_all forallb]. rewrite Htaken. unfold MemDb.index_insert.
  change (models.transaction_hash
            (staged_row user_id account_id (to_standard_format raw1 source)))
    with (get (to_standard_format raw1 source) "transaction_hash").
  destruct Hc1 as [_ [h Hh]]. rewrite Hh in *. rewrite Hfresh. reflexivity.
Qed.

Lemma save_to_database_first_copy_wins_witness :
  let first := [ (KStr "date", PStr "2025-01-15"); (KStr "amount", PStr "-12000");
                 (KStr "merchant", PStr "Makro"); (KStr "category", PStr "Food") ] in
  let second := [ (KStr "Date", PStr "2025-01-15"); (KStr "Amount", PStr "-12000");
                  (KStr "Merchant", PStr "Makro"); (KStr "Category", PStr "Groceries");
                  (KStr "id", PInt 9) ] in
  exists row,
    save_to_database 7 (Some 1)
      [to_standard_format first "csv"; to_standard_format second "csv"]
      (MemDb.Db [] [] true)
    = (ok [ (KStr "saved", PInt 1); (KStr "duplicates", PInt 1);
            (KStr "errors", PList []) ],
       MemDb.Db [row] [] true)
    /\ models.category row = PStr "Food".
Proof.
  intros first second. eexists. split.
  - apply (@save_to_database_first_copy_wins Sample.runtime sample_schema 7 (Some 1)
             first second "csv" (MemDb.Db [] [] true));
      reflexivity.
  - reflexivity.
Defined.

(* ================================================================= *)
(** ** Loading the same batch twice *)

Lemma save_to_database_twice (rt : Runtime) (schema : Schema)
      (user_id : Z) (account_id : option Z) (txns : list dict) (db : MemDb.t) :
  Forall canonical txns ->
  NoDup (map (fun txn => get txn "transaction_hash") txns) ->
  MemDb.pending db = [] ->
  (forall txn, In txn txns ->
               existsb (MemDb.hash_matches (get txn "transaction_hash"))
                       (MemDb.committed db) = false) ->
  (forall txn, In txn txns -> accepts (staged_row user_id account_id txn) = true) ->
  let n := Z.of_nat (List.length txns) in
  let db1 := MemDb.Db (MemDb.committed db ++ map (staged_row user_id account_id) txns)
                      [] (MemDb.autoflush db) in
  save_to_database user_id account_id txns db
  = (ok [ (KStr "saved", PInt n); (KStr "duplicates", PInt 0);
          (KStr "errors", PList []) ], db1)
  /\ save_to_database user_id account_id txns db1
     = (ok [ (KStr "saved", PInt 0); (KStr "duplicates", PInt n);
             (KStr "errors", PList []) ], db1).
Proof.
  intros Hcan Hnd Hpending Hfresh Htaken n db1. split.
  - unfold save_to_database. rewrite loop_all_fresh; try assumption.
    + rewrite memdb_commit. cbn [MemDb.committed MemDb.pending MemDb.autoflush].
      rewrite Hpending. cbn [app]. rewrite insert_all_fresh by assumption.
      rewrite forallb_accepts_staged by assumption.
      reflexivity.
    + intros txn Hin. unfold MemDb.visible. rewrite Hpending.
      rewrite existsb_app, (Hfresh _ Hin). now destruct (MemDb.autoflush db).
  - unfold save_to_database. rewrite loop_all_duplicates; try assumption.
    + rewrite memdb_commit. reflexivity.
    + intros txn Hin. unfold MemDb.visible, db1.
      cbn [MemDb.committed MemDb.pending MemDb.autoflush].
      rewrite !existsb_app. apply orb_true_iff. left. apply orb_true_iff. right.
      apply existsb_exists. exists (staged_row user_id account_id txn). split.
      * now apply in_map.
      * apply hash_matches_own. rewrite Forall_forall in Hcan. auto.
Qed.

(* ================================================================= *)
(** ** The API and webhook orchestrators *)

Lemma canonicalize_each_mappings (rt : Runtime) (raws : list dict) (source : string) :
  canonicalize_each (map PDict raws) source
  = ok (map (fun raw => to_standard_format raw source) raws).
Proof.
  induction raws as [|raw raws IH]; [reflexivity|].
  cbn [map canonicalize_each to_standard_format_any]. rewrite IH. reflexivity.
Qed.

Lemma canonicalize_each_bad (rt : Runtime) (before : list dict) (bad : pyval)
      (after : list pyval) (source : string) :
  (forall d, bad <> PDict d) ->
  canonicalize_each (map PDict before ++ bad :: after) source
  = raise (AttributeError ("'" ++ type_name bad ++ "' object has no attribute 'get'")).
Proof.
  intros Hbad. induction before as [|raw before IH].
  - cbn [map app canonicalize_each]. destruct bad; try reflexivity.
    exfalso. now apply (Hbad kvs).
  - cbn [map app canonicalize_each to_standard_format_any]. rewrite IH. reflexivity.
Qed.

(** X12. Pulling the same API page twice is idempotent on the reference
    store.  When the endpoint answers with a sequence of [N] mappings
    whose canonical transactions have pairwise distinct fingerprints,
    none of them in the table, and the table takes the row the loader
    builds from each of them, the first [ingest_from_api] reports
    [total = N], [saved = N], [duplicates = 0] and appends the [N] rows;
    the second reports [saved = 0], [duplicates = N] and leaves the
    store as it was. *)
Theorem ingest_from_api_idempotent :
  forall (rt : Runtime) (http : Http) (schema : Schema) (url : string) (headers : dict)
         (user_id account_id : Z) (source : string)
         (raws : list dict) (db : MemDb.t),
    fetch_from_api url headers None = ok (PList (map PDict raws)) ->
    NoDup (map (fun raw => get (to_standard_format raw source) "transaction_hash") raws) ->
    MemDb.pending db = [] ->
    (forall raw, In raw raws ->
       existsb (MemDb.hash_matches
                  (get (to_standard_format raw source) "transaction_hash"))
               (MemDb.committed db) = false) ->
    (forall raw, In raw raws ->
       accepts (staged_row user_id (Some account_id) (to_standard_format raw source))
       = true) ->
    let N := Z.of_nat (List.length raws) in
    let report s d :=
      [ (KStr "total", PInt N); (KStr "saved", PInt s);
        (KStr "duplicates", PInt d); (KStr "errors", PList []) ] in
    let db1 :=
      MemDb.Db (MemDb.committed db
                ++ map (fun raw => staged_row user_id (Some account_id)
                                              (to_standard_format raw source)) raws)
               [] (MemDb.autoflush db) in
    ingest_from_api url headers user_id account_id source db = (ok (report N 0), db1)
    /\ ingest_from_api url headers user_id account_id source db1 = (ok (report 0 N), db1).
Proof.
  intros rt http schema url headers user_id account_id source raws db
         Hfetch Hnd Hpending Hfresh Htaken N report db1.
  set (txns := map (fun raw => to_standard_format raw source) raws).
  assert (Hcan : Forall canonical txns).
  { apply Forall_forall. intros txn Hin. apply in_map_iff in Hin.
    destruct Hin as (raw & <- & _). apply to_standard_format_canonical. }
  assert (Hnd' : NoDup (map (fun txn => get txn "transaction_hash") txns))
    by (unfold txns; now rewrite map_map).
  assert (Hfresh' : forall txn, In txn txns ->
            existsb (MemDb.hash_matches (get txn "transaction_hash"))
                    (MemDb.committed db) = false).
  { intros txn Hin. apply in_map_iff in Hin. destruct Hin as (raw & <- & Hin).
    now apply Hfresh. }
  assert (Htaken' : forall txn, In txn txns ->
            accepts (staged_row user_id (Some account_id) txn) = true).
  { intros txn Hin. apply in_map_iff in Hin. destruct Hin as (raw & <- & Hin).
    now apply Htaken. }
  destruct (@save_to_database_twice rt schema user_id (Some account_id) txns db
              Hcan Hnd' Hpending Hfresh' Htaken') as [Hfirst Hsecond].
  assert (Hdb1 : MemDb.Db (MemDb.committed db
                           ++ map (staged_row user_id (Some account_id)) txns)
                          [] (MemDb.autoflush db) = db1)
    by (unfold db1, txns; now rewrite map_map).
  rewrite Hdb1 in Hfirst, Hsecond.
  assert (Hlen : List.length txns = List.length raws) by apply length_map.
  rewrite Hlen in Hfirst, Hsecond.
  split; unfold ingest_from_api, bind, lift, ret; rewrite Hfetch; unfold ok;
    cbv beta iota; cbn [py_iter rbind ok]; unfold ok;
    rewrite canonicalize_each_mappings; unfold ok; cbv beta iota; fold txns.
  - unfold ok in Hfirst. rewrite Hfirst. cbn [py_len]. unfold ok.
    rewrite length_map. reflexivity.
  - unfold ok in Hsecond. rewrite Hsecond. cbn [py_len]. unfold ok.
    rewrite length_map. reflexivity.
Qed.

Lemma ingest_from_api_idempotent_witness :
  let url := "https://bank.example/transactions" in
  let report s d :=
    [ (KStr "total", PInt 2); (KStr "saved", PInt s);
      (KStr "duplicates", PInt d); (KStr "errors", PList []) ] in
  exists db1,
    ingest_from_api url [] 7 1 "api" (MemDb.Db [] [] true) = (ok (report 2 0), db1)
    /\ ingest_from_api url [] 7 1 "api" db1 = (ok (report 0 2), db1).
Proof.
  intros url report. eexists.
  refine (@ingest_from_api_idempotent Sample.runtime sample_http sample_schema
            url [] 7 1 "api"
            [ [ (KStr "id", PInt 101); (KStr "created_at", PStr "2025-01-15T10:30:00");
                (KStr "amount", PInt 50000); (KStr "recipient", PStr "Starbucks") ];
              [ (KStr "id", PInt 102); (KStr "created_at", PStr "2025-01-15T11:00:00");
                (KStr "amount", PInt 25000); (KStr "recipient", PStr "Korzinka") ] ]
            (MemDb.Db [] [] true) _ _ _ _ _).
  - reflexivity.
  - vm_compute. repeat constructor; simpl; intuition discriminate.
  - reflexivity.
  - intros raw Hin. reflexivity.
  - intros raw [<- | [<- | []]]; vm_compute; reflexivity.
Defined.

(** X13. When the record sequence the endpoint yields is malformed,
    [ingest_from_api] raises before it touches the session: a sequence
    whose first element that is not a mapping is [bad] raises
    [AttributeError] for [bad]'s type, with nothing looked up or staged
    for the mappings before it; a mapping found where the sequence
    should be raises [AttributeError] for its first key; a number, a
    boolean or [None] raises [TypeError]. *)
Theorem ingest_from_api_malformed_records :
  forall (rt : Runtime) (http : Http) (S : Type) (session : Session S)
         (url : string) (headers : dict) (user_id account_id : Z)
         (source : string) (rows : pyval) (db : S),
    fetch_from_api url headers None = ok rows ->
    (forall before bad after,
        rows = PList (map PDict before ++ bad :: after) ->
        (forall d, bad <> PDict d) ->
        ingest_from_api url headers user_id account_id source db
        = (raise (AttributeError
                    ("'" ++ type_name bad ++ "' object has no attribute 'get'")), db))
    /\ (forall k v rest,
           rows = PDict ((KStr k, v) :: rest) ->
           ingest_from_api url headers user_id account_id source db
           = (raise (AttributeError "'str' object has no attribute 'get'"), db))
    /\ ((forall xs, rows <> PList xs) -> (forall d, rows <> PDict d) ->
        (forall s, rows <> PStr s) ->
        ingest_from_api url headers user_id account_id source db
        = (raise (TypeError ("'" ++ type_name rows ++ "' object is not iterable")), db)).
Proof.
  intros rt http S session url headers user_id account_id source rows db Hfetch.
  unfold ingest_from_api, bind, lift, ret. rewrite Hfetch. unfold ok. cbv beta iota.
  split; [| split].
  - intros before bad after -> Hbad. cbn [py_iter rbind ok]. unfold ok.
    now rewrite canonicalize_each_bad.
  - intros k v rest ->. reflexivity.
  - intros Hl Hd Hs. destruct rows; try reflexivity.
    + exfalso. now apply (Hs s).
    + exfalso. now apply (Hl xs).
    + exfalso. now apply (Hd kvs).
Qed.

Lemma ingest_from_api_malformed_records_witness :
  ingest_from_api "https://bank.example/broken" [] 7 1 "api" (MemDb.Db [] [] true)
  = (raise (AttributeError "'int' object has no attribute 'get'"), MemDb.Db [] [] true).
Proof.
  apply (proj1 (@ingest_from_api_malformed_records Sample.runtime sample_http
                  MemDb.t MemDb.session "https://bank.example/broken" [] 7 1 "api"
                  (PList [ PDict [(KStr "id", PInt 1); (KStr "amount", PInt 5)]; PInt 17 ])
                  (MemDb.Db [] [] true) eq_refl)
               [ [(KStr "id", PInt 1); (KStr "amount", PInt 5)] ] (PInt 17) []).
  - reflexivity.
  - discriminate.
Defined.

(** X14. A webhook delivered twice is stored once.  On the reference
    store, when the payload translates, its fingerprint is not in the
    table and the table takes the row the loader builds from it, the
    first [ingest_from_uzum_webhook] reports [total = 1], [saved = 1]
    and appends one row; the second reports [duplicates = 1] and leaves
    the store as it was. *)
Theorem ingest_from_uzum_webhook_idempotent :
  forall (rt : Runtime) (schema : Schema) (payload : dict) (event_type : string)
         (user_id account_id : Z) (r : dict) (db : MemDb.t),
    uzum_webhook_to_standard payload event_type = ok r ->
    let txn := to_standard_format r "uzum_webhook" in
    MemDb.pending db = [] ->
    existsb (MemDb.hash_matches (get txn "transaction_hash")) (MemDb.committed db) = false ->
    accepts (staged_row user_id (Some account_id) txn) = true ->
    let report s d :=
      [ (KStr "total", PInt 1); (KStr "saved", PInt s);
        (KStr "duplicates", PInt d); (KStr "errors", PList []) ] in
    let db1 := MemDb.Db (MemDb.committed db ++ [staged_row user_id (Some account_id) txn])
                        [] (MemDb.autoflush db) in
    ingest_from_uzum_webhook payload event_type user_id account_id db = (ok (report 1 0), db1)
    /\ ingest_from_uzum_webhook payload event_type user_id account_id db1
       = (ok (report 0 1), db1).
Proof.
  intros rt schema payload event_type user_id account_id r db
         Hr txn Hpending Hfresh Htaken report db1.
  destruct (@save_to_database_twice rt schema user_id (Some account_id) [txn] db)
    as [Hfirst Hsecond].
  - repeat constructor; apply to_standard_format_canonical.
  - repeat constructor. intros [].
  - assumption.
  - intros t [<- | []]. exact Hfresh.
  - intros t [<- | []]. exact Htaken.
  - cbn [map List.length] in Hfirst, Hsecond. fold db1 in Hfirst, Hsecond.
    unfold ok in *.
    split; unfold ingest_from_uzum_webhook, bind, lift, ret; rewrite Hr;
      cbv beta iota zeta; fold txn.
    + rewrite Hfirst. reflexivity.
    + rewrite Hsecond. reflexivity.
Qed.

Lemma ingest_from_uzum_webhook_idempotent_witness :
  let payload := [ (KStr "transId", PStr "tx-1"); (KStr "confirmTime", PInt 1700000000123);
                   (KStr "amount", PInt 50000) ] in
  let report s d :=
    [ (KStr "total", PInt 1); (KStr "saved", PInt s);
      (KStr "duplicates", PInt d); (KStr "errors", PList []) ] in
  exists db1,
    ingest_from_uzum_webhook payload "payment.confirmed" 7 1 (MemDb.Db [] [] true)
    = (ok (report 1 0), db1)
    /\ ingest_from_uzum_webhook payload "payment.confirmed" 7 1 db1
       = (ok (report 0 1), db1).
Proof.
  intros payload report. eexists.
  refine (@ingest_from_uzum_webhook_idempotent Sample.runtime sample_schema payload
            "payment.confirmed" 7 1
            [ (KStr "date", PStr "2023-11-14T22:13:20.123000");
              (KStr "amount", PInt 50000);
              (KStr "merchant", PStr "Uzum Bank");
              (KStr "category", PNone);
              (KStr "description", PStr "Uzum webhook: payment.confirmed");
              (KStr "external_id", PStr "tx-1");
              (KStr "raw_payload", PDict payload);
              (KStr "source", PStr "uzum_webhook") ]
            (MemDb.Db [] [] true) _ _ _ _); reflexivity.
Defined.

(** X15. A timestamp that is not a number stops the webhook before it
    reaches the session: when the first truthy candidate among
    [timestamp], [transTime], [confirmTime] is a string, a list or a
    mapping, the translator raises [TypeError] for the division, and
    [ingest_from_uzum_webhook] raises it with the session untouched. *)
Theorem ingest_from_uzum_webhook_rejects_non_numeric_time :
  forall (rt : Runtime) (S : Type) (session : Session S)
         (payload : dict) (event_type : string) (user_id account_id : Z) (db : S),
    let ts_ms := first_truthy payload ["timestamp"; "transTime"; "confirmTime"] in
    truthy ts_ms = true ->
    type_name ts_ms = "str" \/ type_name ts_ms = "list" \/ type_name ts_ms = "dict" ->
    let error := TypeError ("unsupported operand type(s) for /: '"
                              ++ type_name ts_ms ++ "' and 'int'") in
    uzum_webhook_to_standard payload event_type = raise error
    /\ ingest_from_uzum_webhook payload event_type user_id account_id db
       = (raise error, db).
Proof.
  intros rt S session payload event_type user_id account_id db ts_ms Htruthy Htype error.
  assert (Hraise : uzum_webhook_to_standard payload event_type = raise error).
  { unfold uzum_webhook_to_standard.
    replace (get payload "timestamp" <|> get payload "transTime"
             <|> get payload "confirmTime") with ts_ms
      by (unfold ts_ms; simpl; symmetry; apply py_or_assoc).
    rewrite Htruthy. unfold error.
    destruct ts_ms; simpl in Htype; try reflexivity;
      destruct Htype as [H | [H | H]]; discriminate. }
  split; [exact Hraise|].
  unfold ingest_from_uzum_webhook, bind, lift. now rewrite Hraise.
Qed.

Lemma ingest_from_uzum_webhook_rejects_non_numeric_time_witness :
  ingest_from_uzum_webhook
    [(KStr "timestamp", PInt 0); (KStr "transTime", PStr "2023-11-14T22:13:20")]
    "payment.confirmed" 7 1 (MemDb.Db [] [] true)
  = (raise (TypeError "unsupported operand type(s) for /: 'str' and 'int'"),
     MemDb.Db [] [] true).
Proof.
  apply (proj2 (@ingest_from_uzum_webhook_rejects_non_numeric_time Sample.runtime
                  MemDb.t MemDb.session
                  [(KStr "timestamp", PInt 0); (KStr "transTime", PStr "2023-11-14T22:13:20")]
                  "payment.confirmed" 7 1 (MemDb.Db [] [] true) eq_refl
                  (or_introl eq_refl))).
Defined.

(** X16. On the reference store with [autoflush], started with nothing
    staged, [ingest_from_csv] returns a report for every file that
    reads as rows the table takes: whether the rows are repeated or
    already stored, nothing is raised, [errors] is empty, [total] is the
    number of non-blank rows and [saved + duplicates = total]. *)
Theorem ingest_from_csv_autoflush_reports :
  forall (rt : Runtime) (schema : Schema) (user_id : Z) (account_id : option Z)
         (file_content : list byte) (source : string)
         (rows : list dict) (db : MemDb.t),
    read_csv_file file_content = ok rows ->
    (forall row, In row rows ->
       accepts (staged_row user_id account_id (to_standard_format row source)) = true) ->
    MemDb.autoflush db = true ->
    MemDb.pending db = [] ->
    exists s dup db',
      ingest_from_csv user_id account_id file_content source db
      = (ok [ (KStr "total", PInt (Z.of_nat (List.length rows)));
              (KStr "saved", PInt s); (KStr "duplicates", PInt dup);
              (KStr "errors", PList []) ], db')
      /\ s + dup = Z.of_nat (List.length rows).
Proof.
  intros rt schema user_id account_id file_content source rows db
         Hread Htaken Hauto Hpending.
  set (txns := map (fun row => to_standard_format row source) rows).
  assert (Hcan : Forall canonical txns).
  { apply Forall_forall. intros txn Hin. apply in_map_iff in Hin.
    destruct Hin as (row & <- & _). apply to_standard_format_canonical. }
  assert (Htaken' : forall txn, In txn txns ->
            accepts (staged_row user_id account_id txn) = true).
  { intros txn Hin. apply in_map_iff in Hin. destruct Hin as (row & <- & Hin).
    now apply Htaken. }
  pose proof (loop_counts user_id account_id txns 1 (Tally 0 0 []) db) as Hcount.
  destruct (@loop_autoflush_commits rt schema user_id account_id txns 1 (Tally 0 0 []) db
              Hcan Htaken' Hauto) as (t & staged & Hloop & Hok & Hall & Herr).
  { rewrite Hpending. simpl. now rewrite app_nil_r. }
  { now rewrite Hpending. }
  rewrite Hloop in Hcount. unfold tally_count in Hcount. simpl in Hcount, Herr.
  rewrite Herr in Hcount. simpl in Hcount.
  exists (saved t), (duplicates t). eexists. split.
  - unfold ingest_from_csv, bind, lift, ret. rewrite Hread. unfold ok. cbv beta iota.
    fold txns. unfold save_to_database. rewrite Hloop, memdb_commit.
    cbn [MemDb.committed MemDb.pending MemDb.autoflush]. rewrite Hok, Hall.
    unfold result_dict. rewrite Herr. reflexivity.
  - unfold txns in Hcount. rewrite length_map in Hcount. lia.
Qed.

Lemma ingest_from_csv_autoflush_reports_witness :
  fst (ingest_from_csv 7 (Some 1)
         (list_byte_of_string "date,amount,merchant
2025-01-15,-12000,Makro
,,
2025-01-15,-12000,Makro
2025-01-16,50000,Employer
") "csv" (MemDb.Db [] [] true))
  = ok [ (KStr "total", PInt 3); (KStr "saved", PInt 2);
         (KStr "duplicates", PInt 1); (KStr "errors", PList []) ].
Proof.
  destruct (@ingest_from_csv_autoflush_reports Sample.runtime sample_schema 7 (Some 1)
              (list_byte_of_string "date,amount,merchant
2025-01-15,-12000,Makro
,,
2025-01-15,-12000,Makro
2025-01-16,50000,Employer
") "csv"
              [ [ (KStr "date", PStr "2025-01-15"); (KStr "amount", PStr "-12000");
                  (KStr "merchant", PStr "Makro") ];
                [ (KStr "date", PStr "2025-01-15"); (KStr "amount", PStr "-12000");
                  (KStr "merchant", PStr "Makro") ];
                [ (KStr "date", PStr "2025-01-16"); (KStr "amount", PStr "50000");
                  (KStr "merchant", PStr "Employer") ] ]
              (MemDb.Db [] [] true))
    as (s & dup & db' & Hrun & _).
  - vm_compute. reflexivity.
  - intros row [<- | [<- | [<- | []]]]; vm_compute; reflexivity.
  - reflexivity.
  - reflexivity.
  - vm_compute. reflexivity.
Defined.

(* ================================================================= *)
(** ** The readers' edge cases *)

(** X17. The rows [read_csv_file] returns are those of the table
    reader that hold at least one truthy value, in the reader's order:
    every returned row has such a value, every reader row that has one
    is returned, and a row whose values are all empty strings or [None]
    is dropped. *)
Theorem read_csv_file_drops_blank_rows :
  forall (rt : Runtime) (file_bytes : list byte) (rows : list dict),
    read_csv_file file_bytes = ok rows ->
    exists text reader,
      csv_DictReader text = inr reader
      /\ rows = filter (fun row => existsb truthy (values row)) reader
      /\ (forall row, In row rows ->
                      exists v, In v (values row) /\ truthy v = true)
      /\ (forall row v, In row reader -> In v (values row) -> truthy v = true ->
                        In row rows)
      /\ (forall row, In row reader ->
                      (forall v, In v (values row) -> v = PStr "" \/ v = PNone) ->
                      ~ In row rows).
Proof.
  intros rt file_bytes rows Hread. unfold read_csv_file in Hread.
  destruct (match decode_utf8 file_bytes with
            | Some text => ok text
            | None => decode_cp1251 file_bytes
            end) as [e|text]; simpl in Hread; [discriminate|].
  destruct (csv_DictReader text) as [msg|reader] eqn:Hreader; [discriminate|].
  injection Hread as <-. exists text, reader.
  split; [exact Hreader|]. split; [reflexivity|]. split; [| split].
  - intros row Hin. apply filter_In in Hin. destruct Hin as [_ Hany].
    apply existsb_exists in Hany. exact Hany.
  - intros row v Hrow Hv Htruthy. apply filter_In. split; [assumption|].
    apply existsb_exists. eauto.
  - intros row Hrow Hblank Hin. apply filter_In in Hin. destruct Hin as [_ Hany].
    apply existsb_exists in Hany. destruct Hany as (v & Hv & Htruthy).
    destruct (Hblank v Hv) as [-> | ->]; discriminate.
Qed.

Lemma read_csv_file_drops_blank_rows_witness :
  read_csv_file (list_byte_of_string "date,amount
2025-01-15,-12000
,
2025-01-16
")
  = ok [ [ (KStr "date", PStr "2025-01-15"); (KStr "amount", PStr "-12000") ];
         [ (KStr "date", PStr "2025-01-16"); (KStr "amount", PNone) ] ]
  /\ exists text reader,
       csv_DictReader text = inr reader /\ List.length reader = 3%nat.
Proof.
  assert (Hread : read_csv_file (list_byte_of_string "date,amount
2025-01-15,-12000
,
2025-01-16
")
  = ok [ [ (KStr "date", PStr "2025-01-15"); (KStr "amount", PStr "-12000") ];
         [ (KStr "date", PStr "2025-01-16"); (KStr "amount", PNone) ] ])
    by (vm_compute; reflexivity).
  split; [exact Hread|].
  destruct (@read_csv_file_drops_blank_rows Sample.runtime _ _ Hread)
    as (text & reader & Hreader & Hrows & _).
  exists "date,amount
2025-01-15,-12000
,
2025-01-16
", [ [ (KStr "date", PStr "2025-01-15"); (KStr "amount", PStr "-12000") ];
     [ (KStr "date", PStr ""); (KStr "amount", PStr "") ];
     [ (KStr "date", PStr "2025-01-16"); (KStr "amount", PNone) ] ].
  split; reflexivity.
Defined.

Lemma cp1251_code_point_undefined (b : byte) :
  cp1251_code_point (byte_val b) = None <-> b = x98.
Proof.
  split.
  - destruct b; intros H; try reflexivity; vm_compute in H; discriminate.
  - intros ->. reflexivity.
Qed.

Lemma cp1251_chars_total (bs : list byte) :
  forall pos,
    ~ In x98 bs -> exists out, cp1251_chars pos (map byte_val bs) = ok out.
Proof.
  induction bs as [|b bs IH]; intros pos Hnot; [exists []; reflexivity|].
  cbn [map cp1251_chars].
  destruct (cp1251_code_point (byte_val b)) as [cp|] eqn:E.
  - destruct (IH (pos + 1)) as [out ->]; [intros Hin; apply Hnot; now right|].
    eexists. reflexivity.
  - exfalso. apply Hnot. left. now apply cp1251_code_point_undefined.
Qed.

Lemma cp1251_chars_first_undefined (pre post : list byte) :
  forall pos,
    ~ In x98 pre ->
    cp1251_chars pos (map byte_val (pre ++ x98 :: post))
    = raise (UnicodeDecodeError "charmap" 0x98 (pos + Z.of_nat (List.length pre))
                                "character maps to <undefined>").
Proof.
  induction pre as [|b pre IH]; intros pos Hnot.
  - cbn [app map cp1251_chars List.length]. rewrite Z.add_0_r. reflexivity.
  - cbn [app map cp1251_chars].
    destruct (cp1251_code_point (byte_val b)) as [cp|] eqn:E.
    + rewrite IH by (intros Hin; apply Hnot; now right).
      replace (pos + 1 + Z.of_nat (List.length pre))
        with (pos + Z.of_nat (List.length (b :: pre)))
        by (cbn [List.length]; lia).
      reflexivity.
    + exfalso. apply Hnot. left. now apply cp1251_code_point_undefined.
Qed.

(** X18. A file that is not UTF-8 is refused exactly when it holds the
    byte [0x98], the one byte windows-1251 leaves unassigned: then
    [read_csv_file] raises [UnicodeDecodeError] for the position of the
    first such byte and [ingest_from_csv] raises it with the session
    untouched; a file without that byte never fails to decode. *)
Theorem read_csv_file_refuses_only_0x98 :
  forall (rt : Runtime) (S : Type) (session : Session S)
         (user_id : Z) (account_id : option Z) (source : string)
         (file_bytes : list byte) (db : S),
    (forall pre post,
        decode_utf8 file_bytes = None ->
        file_bytes = (pre ++ x98 :: post)%list ->
        ~ In x98 pre ->
        let error := UnicodeDecodeError "charmap" 0x98 (Z.of_nat (List.length pre))
                                        "character maps to <undefined>" in
        read_csv_file file_bytes = raise error
        /\ ingest_from_csv user_id account_id file_bytes source db = (raise error, db))
    /\ (~ In x98 file_bytes ->
        forall encoding b pos reason,
          read_csv_file file_bytes <> raise (UnicodeDecodeError encoding b pos reason)).
Proof.
  intros rt S session user_id account_id source file_bytes db. split.
  - intros pre post Hutf8 -> Hpre error.
    assert (Hread : read_csv_file (pre ++ x98 :: post) = raise error).
    { unfold read_csv_file, decode_cp1251. rewrite Hutf8.
      rewrite cp1251_chars_first_undefined by assumption. reflexivity. }
    split; [exact Hread|].
    unfold ingest_from_csv, bind, lift. now rewrite Hread.
  - intros Hnot encoding b pos reason Hread. unfold read_csv_file in Hread.
    destruct (decode_utf8 file_bytes) as [text|].
    + simpl in Hread. destruct (csv_DictReader text); discriminate.
    + unfold decode_cp1251 in Hread.
      destruct (cp1251_chars_total file_bytes 0 Hnot) as [out Hout].
      rewrite Hout in Hread. simpl in Hread.
      destruct (csv_DictReader (string_of_vals out)); discriminate.
Qed.

Lemma read_csv_file_refuses_only_0x98_witness :
  read_csv_file [x64; xe0; x98; x0a]
  = raise (UnicodeDecodeError "charmap" 0x98 2 "character maps to <undefined>")
  /\ ingest_from_csv 7 (Some 1) [x64; xe0; x98; x0a] "csv" (MemDb.Db [] [] true)
     = (raise (UnicodeDecodeError "charmap" 0x98 2 "character maps to <undefined>"),
        MemDb.Db [] [] true).
Proof.
  apply (proj1 (@read_csv_file_refuses_only_0x98 Sample.runtime MemDb.t MemDb.session
                  7 (Some 1) "csv" [x64; xe0; x98; x0a] (MemDb.Db [] [] true))
               [x64; xe0] [x0a]).
  - reflexivity.
  - reflexivity.
  - intros [H | [H | []]]; discriminate.
Defined.

(** X19. A mapping whose ["result"] entry is present but is not itself
    a mapping (JSON [null], a string, a number, a list) makes
    [normalize_api_response], and with it [fetch_from_api], raise
    [AttributeError] instead of yielding the empty sequence, unless
    ["data"] or ["transactions"] holds a truthy value. *)
Theorem normalize_api_response_result_not_mapping :
  forall (http : Http) (url : string) (headers : dict) (params : option dict)
         (d : dict) (v : pyval),
    truthy (get d "data") = false ->
    truthy (get d "transactions") = false ->
    has_key d "result" = true ->
    get d "result" = v ->
    (forall r, v <> PDict r) ->
    let error := AttributeError ("'" ++ type_name v ++ "' object has no attribute 'get'") in
    normalize_api_response (PDict d) = raise error
    /\ (http_get_json url headers params = ok (PDict d) ->
        fetch_from_api url headers params = raise error).
Proof.
  intros http url headers params d v Hdata Htx Hkey Hv Hnot error.
  assert (Hraise : normalize_api_response (PDict d) = raise error).
  { cbn [normalize_api_response]. unfold or_else. rewrite Hdata, Htx.
    rewrite get_default_get, Hkey, Hv. unfold error.
    destruct v; try reflexivity. exfalso. now apply (Hnot kvs). }
  split; [exact Hraise|].
  intros Hbody. unfold fetch_from_api. rewrite Hbody. exact Hraise.
Qed.

Lemma normalize_api_response_result_not_mapping_witness :
  normalize_api_response
    (PDict [ (KStr "jsonrpc", PStr "2.0"); (KStr "result", PNone);
             (KStr "error", PDict [(KStr "code", PInt (-32504))]) ])
  = raise (AttributeError "'NoneType' object has no attribute 'get'").
Proof.
  apply (proj1 (@normalize_api_response_result_not_mapping sample_http "" [] None
                  [ (KStr "jsonrpc", PStr "2.0"); (KStr "result", PNone);
                    (KStr "error", PDict [(KStr "code", PInt (-32504))]) ]
                  PNone eq_refl eq_refl eq_refl eq_refl
                  ltac:(discriminate))).
Defined.
